(** * full_auto_research_bot: outline extraction, research loop, file naming

    A shallow embedding of [full_auto_research_bot.py].

    Text.  A Python [str] is modelled as a Rocq [string] whose characters
    are the code points 0..255; the character classes Python consults
    ([str.isalnum], [str.isspace], the regex classes [\s] and [\d]) are
    their restrictions to that range.

    Effects.  The browser, the clipboard, the console and the output file
    are an explicit world threaded through a small state-and-exception
    monad; what the outside world answers to each call is read from an
    environment record, so that every theorem quantifies over all
    behaviours of the page and of the file system. *)

From Stdlib Require Import Bool Arith NArith Lia List Ascii String DecimalString.
Import ListNotations.
Open Scope string_scope.

(* ================================================================== *)
(** * Characters and strings *)

Module Str.

Definition code (c : ascii) : nat := nat_of_ascii c.

Definition between (lo hi : nat) (c : ascii) : bool :=
  Nat.leb lo (code c) && Nat.leb (code c) hi.

(** [c.isalnum()]: letters and characters with a numeric value. *)
Definition isalnum (c : ascii) : bool :=
  between 48 57 c || between 65 90 c || between 97 122 c
  || between 170 170 c || between 178 179 c || between 181 181 c
  || between 185 186 c || between 188 190 c
  || between 192 214 c || between 216 246 c || between 248 255 c.

(** [c.isspace()], also the regex class [\s] on [str] patterns. *)
Definition isspace (c : ascii) : bool :=
  between 9 13 c || between 28 32 c || between 133 133 c
  || between 160 160 c.

(** The regex class [\d] on [str] patterns. *)
Definition isdigit (c : ascii) : bool := between 48 57 c.

Definition space : ascii := " "%char.
Definition underscore : ascii := "_"%char.

Definition is_nil (s : string) : bool :=
  match s with EmptyString => true | String _ _ => false end.

(** ["".join(c for c in s if p c)] *)
Fixpoint filter (p : ascii -> bool) (s : string) : string :=
  match s with
  | EmptyString => EmptyString
  | String c s' => if p c then String c (filter p s') else filter p s'
  end.

(** [s.rstrip()]: drops the longest suffix of whitespace. *)
Fixpoint rstrip (s : string) : string :=
  match s with
  | EmptyString => EmptyString
  | String c s' =>
      let r := rstrip s' in
      if is_nil r && isspace c then EmptyString else String c r
  end.

Fixpoint map (f : ascii -> ascii) (s : string) : string :=
  match s with
  | EmptyString => EmptyString
  | String c s' => String (f c) (map f s')
  end.

(** [s.replace(old, new)] for one-character [old] and [new]. *)
Definition replace (old new : ascii) (s : string) : string :=
  map (fun c => if Ascii.eqb c old then new else c) s.

Fixpoint all (p : ascii -> bool) (s : string) : bool :=
  match s with
  | EmptyString => true
  | String c s' => p c && all p s'
  end.

Fixpoint repeat (c : ascii) (n : nat) : string :=
  match n with
  | O => EmptyString
  | S n' => String c (repeat c n')
  end.

(** [s.upper()] on the alphabet of section titles (ASCII letters, digits
    and the space, see [Outline.is_title]); characters above 127 are
    outside that alphabet and are left as they are. *)
Definition upper_char (c : ascii) : ascii :=
  if between 97 122 c then ascii_of_nat (code c - 32) else c.

Definition upper (s : string) : string := map upper_char s.

(** Whether the last character of [s] is in the class [p]. *)
Fixpoint ends_in (p : ascii -> bool) (s : string) : bool :=
  match s with
  | EmptyString => false
  | String c EmptyString => p c
  | String _ s' => ends_in p s'
  end.

(** [s.startswith(p)] *)
Fixpoint starts_with (p s : string) : bool :=
  match p, s with
  | EmptyString, _ => true
  | String a p', String b s' => Ascii.eqb a b && starts_with p' s'
  | String _ _, EmptyString => false
  end.

(** [s[n:]] *)
Fixpoint drop (n : nat) (s : string) : string :=
  match n, s with
  | O, _ => s
  | S n', String _ s' => drop n' s'
  | S _, EmptyString => EmptyString
  end.

(** The longest prefix of [s] in the class [p], and what follows it. *)
Fixpoint take_while (p : ascii -> bool) (s : string) : string :=
  match s with
  | String c s' => if p c then String c (take_while p s') else EmptyString
  | EmptyString => EmptyString
  end.

Fixpoint drop_while (p : ascii -> bool) (s : string) : string :=
  match s with
  | String c s' => if p c then drop_while p s' else s
  | EmptyString => EmptyString
  end.

(** Whether [p] occurs in [s]. *)
Fixpoint occurs (p s : string) : bool :=
  starts_with p s ||
  match s with
  | EmptyString => false
  | String _ s' => occurs p s'
  end.

End Str.

(* ================================================================== *)
(** * Output file name (the [__main__] block, lines 162-174) *)

Module Naming.

Definition RESEARCH_DIR : string := "article_research".

(** The character test of line 172: [c.isalnum() or c in (' ', '_')]. *)
Definition kept (c : ascii) : bool :=
  Str.isalnum c || Ascii.eqb c Str.space || Ascii.eqb c Str.underscore.

(** Line 172. *)
Definition safe_topic (main_topic : string) : string :=
  Str.replace Str.space Str.underscore (Str.rstrip (Str.filter kept main_topic)).

(** Line 173; [timestamp] is what [strftime] returned. *)
Definition output_filename (main_topic timestamp : string) : string :=
  "article_research_" ++ safe_topic main_topic ++ "_" ++ timestamp ++ ".txt".

(** [os.path.join(a, b)] for a non-empty [a] that does not end in the
    separator and a relative [b]; [sep] is the platform's [os.sep]. *)
Definition path_join (sep a b : string) : string := a ++ sep ++ b.

(** Lines 162-174: [None] is the early [exit()] of line 165, otherwise the
    path under which the research is going to be saved. *)
Definition output_filepath (sep main_topic timestamp : string) : option string :=
  if Str.is_nil main_topic then None
  else Some (path_join sep RESEARCH_DIR (output_filename main_topic timestamp)).

End Naming.

(* ================================================================== *)
(** * Regular expressions (the part of [re] that line 89 uses) *)

Module Re.

(** Pattern syntax: character classes, concatenation, ordered
    alternation, greedy and lazy repetition, numbered capture groups and
    positive lookahead. *)
Inductive re : Type :=
| Eps
| Chr (p : ascii -> bool)
| Seq (r1 r2 : re)
| Alt (r1 r2 : re)
| Star (greedy : bool) (r : re)
| Group (n : nat) (r : re)
| Ahead (r : re).

(** A literal string. *)
Fixpoint lit (s : string) : re :=
  match s with
  | EmptyString => Eps
  | String c s' => Seq (Chr (Ascii.eqb c)) (lit s')
  end.

(** [r+] *)
Definition plus (r : re) : re := Seq r (Star true r).

(** [.] under [re.DOTALL] *)
Definition dot : re := Chr (fun _ => true).

(** Capture groups set so far, most recent first. *)
Definition captures : Type := list (nat * string).

Fixpoint group (n : nat) (caps : captures) : string :=
  match caps with
  | [] => ""
  | (m, s) :: caps' => if Nat.eqb m n then s else group n caps'
  end.

(** What was consumed between the input [s] and its suffix [rest]. *)
Definition consumed (s rest : string) : string :=
  substring 0 (length s - length rest) s.

(** The rounds of a repetition whose body is matched by [body]: a
    greedy one tries another round before the continuation [k], a lazy
    one tries [k] first.  A round has to consume input, so a [fuel] of
    [length s] rounds is enough. *)
Fixpoint rounds {R : Type}
    (body : string -> captures -> (string -> captures -> option R) -> option R)
    (greedy : bool) (k : string -> captures -> option R)
    (fuel : nat) (s : string) (caps : captures) : option R :=
  let again (_ : unit) :=
    match fuel with
    | O => None
    | S fuel' =>
        body s caps (fun s1 c1 =>
          if Nat.ltb (length s1) (length s)
          then rounds body greedy k fuel' s1 c1 else None)
    end in
  if greedy then
    match again tt with Some x => Some x | None => k s caps end
  else
    match k s caps with Some x => Some x | None => again tt end.

(** Backtracking matcher.  [exec r s caps k] matches [r] at the front of
    [s] and hands the remaining input to the continuation [k]; when [k]
    fails, the next alternative of [r] is tried, in the order a
    backtracking engine tries them. *)
Fixpoint exec {R : Type} (r : re) (s : string) (caps : captures)
    (k : string -> captures -> option R) {struct r} : option R :=
  match r with
  | Eps => k s caps
  | Chr p =>
      match s with
      | String c s' => if p c then k s' caps else None
      | EmptyString => None
      end
  | Seq r1 r2 => exec r1 s caps (fun s1 c1 => exec r2 s1 c1 k)
  | Alt r1 r2 =>
      match exec r1 s caps k with
      | Some x => Some x
      | None => exec r2 s caps k
      end
  | Star greedy r1 =>
      rounds (fun s1 c1 k1 => exec r1 s1 c1 k1) greedy k (length s) s caps
  | Group n r1 =>
      exec r1 s caps (fun s1 c1 => k s1 ((n, consumed s s1) :: c1))
  | Ahead r1 =>
      match exec r1 s caps (fun _ c1 => Some c1) with
      | Some c1 => k s c1
      | None => None
      end
  end.

(** One match attempt at the front of [s]: the rest of the input after
    the match and the groups. *)
Definition match_at (r : re) (s : string) : option (string * captures) :=
  exec r s [] (fun rest caps => Some (rest, caps)).

(** Left-to-right scan for non-overlapping matches; [skip] counts the
    characters of the current match that are still to be stepped over.
    (The pattern of line 89 cannot match the empty string, so the
    treatment of empty matches plays no role.) *)
Fixpoint scan (r : re) (s : string) (skip : nat) : list captures :=
  match s with
  | EmptyString => []
  | String _ s' =>
      match skip with
      | S n => scan r s' n
      | O =>
          match match_at r s with
          | Some (rest, caps) =>
              caps :: scan r s' (length s - length rest - 1)
          | None => scan r s' 0
          end
      end
  end.

(** [re.findall] for a pattern with two groups: one pair of group
    texts per match. *)
Definition findall (r : re) (s : string) : list (string * string) :=
  List.map (fun caps => (group 1 caps, group 2 caps)) (scan r s 0).

End Re.

(* ================================================================== *)
(** * Section extraction (line 89) *)

Module Outline.

Import Re.

(** [Introduction|Step \d+|Conclusion] *)
Definition label_re : re :=
  Alt (lit "Introduction")
      (Alt (Seq (lit "Step ") (plus (Chr Str.isdigit)))
           (lit "Conclusion")).

(** [r"(##\s(Introduction|Step \d+|Conclusion):.*?)(?=---)"] with
    [re.DOTALL]. *)
Definition section_re : re :=
  Seq (Group 1
         (Seq (lit "##")
         (Seq (Chr Str.isspace)
         (Seq (Group 2 label_re)
         (Seq (lit ":")
              (Star false dot))))))
      (Ahead (lit "---")).

(** Line 89. *)
Definition sections (content_outline : string) : list (string * string) :=
  findall section_re content_outline.

(** Line 94: [[s[1] for s in sections]]. *)
Definition section_titles (content_outline : string) : list string :=
  List.map snd (sections content_outline).

(** ** The pattern in closed form

    What follows restates the matcher on the pattern of line 89 without
    continuations; [OutlineFacts] proves the two agree. *)

(** The first suffix of [s], [s] included, that [k] accepts. *)
Fixpoint first_suffix {R : Type} (k : string -> option R) (s : string)
    : option R :=
  match k s with
  | Some x => Some x
  | None =>
      match s with
      | EmptyString => None
      | String _ s' => first_suffix k s'
      end
  end.

(** The longest run of characters in [p] at the front of [s] after which
    [k] accepts, tried from the whole run down to the empty one. *)
Fixpoint longest {R : Type} (p : ascii -> bool) (k : string -> option R)
    (s : string) : option R :=
  match s with
  | String c s' =>
      if p c then
        match longest p k s' with Some x => Some x | None => k s end
      else k s
  | EmptyString => k s
  end.

(** The label alternatives in closed form: the title and what follows
    it. *)
Definition label (s : string) : option (string * string) :=
  if Str.starts_with "Introduction" s then
    Some ("Introduction", Str.drop 12 s)
  else if Str.starts_with "Step " s then
    let digits := Str.take_while Str.isdigit (Str.drop 5 s) in
    if Str.is_nil digits then None
    else Some ("Step " ++ digits, Str.drop_while Str.isdigit (Str.drop 5 s))
  else if Str.starts_with "Conclusion" s then
    Some ("Conclusion", Str.drop 10 s)
  else None.

(** The input from its first separator on. *)
Definition until_sep (s : string) : option string :=
  first_suffix (fun s' => if Str.starts_with "---" s' then Some s' else None) s.

(** One match attempt of the pattern of line 89 in closed form: the
    span of group 1, the title of group 2 and the rest of the input. *)
Definition section_at (s : string) : option (string * string * string) :=
  if Str.starts_with "##" s then
    match Str.drop 2 s with
    | String w s0 =>
        if Str.isspace w then
          match label s0 with
          | Some (title, s1) =>
              if Str.starts_with ":" s1 then
                match until_sep (Str.drop 1 s1) with
                | Some rest => Some (consumed s rest, title, rest)
                | None => None
                end
              else None
          | None => None
          end
        else None
    | EmptyString => None
    end
  else None.

(** A title as the label alternatives admit it. *)
Definition is_title (t : string) : bool :=
  String.eqb t "Introduction" || String.eqb t "Conclusion"
  || (Str.starts_with "Step " t && negb (Str.is_nil (Str.drop 5 t))
      && Str.all Str.isdigit (Str.drop 5 t)).

(** [body] runs up to a separator and holds none before its end, not
    even one that its last dashes would form with the separator. *)
Definition sep_free (body : string) : bool :=
  negb (Str.occurs "---" (body ++ "--")).

(** The spans lie in [s] one after the other, each followed at once by a
    separator. *)
Fixpoint laid_out (spans : list string) (s : string) : Prop :=
  match spans with
  | [] => True
  | span :: more =>
      exists pre rest,
        s = pre ++ span ++ rest /\
        Str.starts_with "---" rest = true /\
        laid_out more rest
  end.

(** A delimited section of an outline: the text before its heading, the
    whitespace character after [##], the title, the text after the
    colon. *)
Record block : Type := {
  lead : string;
  gap : ascii;
  title : string;
  body : string
}.

Definition span (b : block) : string :=
  "##" ++ String (gap b) (title b ++ ":" ++ body b).

Definition well_formed (b : block) : bool :=
  Str.all (fun c => negb (Ascii.eqb c "#")) (lead b)
  && Str.isspace (gap b) && is_title (title b) && sep_free (body b).

(** The outline made of the blocks, each closed by a separator, and of
    [tail] after the last separator. *)
Fixpoint render (blocks : list block) (tail : string) : string :=
  match blocks with
  | [] => tail
  | b :: more => lead b ++ span b ++ "---" ++ render more tail
  end.

(** What one match contributes: a title, and as span the heading with
    a separator-free body. *)
Definition shaped (m : string * string) : Prop :=
  is_title (snd m) = true /\
  exists w b,
    Str.isspace w = true /\ sep_free b = true /\
    fst m = "##" ++ String w (snd m ++ ":" ++ b).

End Outline.

(* ================================================================== *)
(** * Effects: exceptions, console, page, clipboard, output file *)

Module Py.

(** Exceptions below [Exception]: Playwright's [TimeoutError] and every
    other one; [str(e)] is the message. *)
Inductive exn : Type :=
| TimeoutError (msg : string)
| OtherError (msg : string).

Definition str_of_exn (e : exn) : string :=
  match e with TimeoutError m => m | OtherError m => m end.

Inductive outcome (A : Type) : Type :=
| Returns (a : A)
| Raises (e : exn).
Arguments Returns {A} a.
Arguments Raises {A} e.

(** A value as a console line shows it: line 148 prints
    [os.path.basename(path)], which depends on the platform and is kept
    unevaluated. *)
Inductive shown : Type :=
| BaseName (path : string).

(** Console lines, one constructor per [print] of the source with the
    values it interpolates. *)
Inductive console : Type :=
| Banner                                   (* lines 20, 86 *)
| OutlineStart                             (* 21 *)
| Navigating                               (* 23 *)
| ChatLoaded                               (* 26 *)
| EnablingSearch                           (* 28 *)
| SearchEnabled                            (* 36 *)
| SearchAlreadyEnabled                     (* 38 *)
| SearchReady                              (* 41 *)
| SendingPrompt (head : string)            (* 46 *)
| PromptSent                               (* 49 *)
| TryCopyOutline                           (* 59 *)
| ClickFailed                              (* 62, 135 *)
| OutlineCopied                            (* 65 *)
| ClipboardEmpty                           (* 70 *)
| OutlineDone                              (* 73 *)
| OutlineError (e : string)                (* 77 *)
| ResearchStart                            (* 87 *)
| NoSections                               (* 91 *)
| Found (n : nat) (titles : list string)   (* 95 *)
| Rule                                     (* 100 *)
| Researching (title : string) (i n : nat) (* 101 *)
| PromptSentMax (minutes : nat)            (* 118 *)
| TryCopyResearch                          (* 132 *)
| ResearchCopied                           (* 138 *)
| Appended (title : string) (file : shown)  (* 148 *)
| ResearchError (title e : string)         (* 151 *)
| PageClosed (title : string).             (* 157 *)

(** What the program does to the outside world, in the order it does
    it. *)
Inductive event : Type :=
| EPrint (l : console)
| ENewPage                    (* browser_context.new_page() *)
| EGoto                       (* page.goto *)
| EWaitInput                  (* wait_for_selector("textarea#chat-input") *)
| EToolsClick                 (* Tools button click *)
| ECheckboxVisible            (* web_search_checkbox.wait_for *)
| EGetState                   (* get_attribute("data-state") *)
| EToggle                     (* web_search_checkbox.click() *)
| EBodyClick                  (* page.locator("body").click() *)
| ESleep (ms : nat)
| EFill (prompt : string)     (* page.fill *)
| EPress                      (* page.press(..., "Enter") *)
| EWaitResponse               (* wait_for_selector(copy button) *)
| EAttached                   (* final_copy_button.wait_for *)
| EClick                      (* final_copy_button.click(timeout=15000) *)
| EDispatch                   (* final_copy_button.dispatch_event('click') *)
| EPaste                      (* pyperclip.paste() *)
| EAppend (path data : string) (* with open(path, 'a') entered to write data *)
| EClosePage.                 (* page.close() *)

(** What the file system answers to one [with open(path, 'a')] block and
    its writes: everything was written; [open] raised, and nothing
    happened; or, the file being open, a write or the closing flush
    raised after the first [kept] characters had reached the file. *)
Inductive file_answer : Type :=
| Written
| OpenFails (e : exn)
| WriteFails (kept : nat) (e : exn).

(** What the outside world answers during one page's life, which is one
    pass of the research loop: the outcome of each call on the page and
    the clipboard, and the answer to the append of the record (lines
    145-147) and to the append of the error block (lines 152-153).
    Printing, sleeping and closing the page are taken to succeed. *)
Record page_env : Type := {
  on_new_page : outcome unit;
  on_goto : outcome unit;
  on_wait_input : outcome unit;
  on_tools_click : outcome unit;
  on_checkbox_visible : outcome unit;
  on_get_state : outcome (option string);
  on_toggle : outcome unit;
  on_body_click : outcome unit;
  on_fill : outcome unit;
  on_press : outcome unit;
  on_wait_response : outcome unit;
  on_attached : outcome unit;
  on_click : outcome unit;
  on_dispatch : outcome unit;
  on_paste : outcome string;
  on_write_record : file_answer;
  on_write_error : file_answer
}.

(** Files by path. *)
Definition fs : Type := list (string * string).

Fixpoint fs_read (path : string) (f : fs) : option string :=
  match f with
  | [] => None
  | (p, c) :: f' => if String.eqb p path then Some c else fs_read path f'
  end.

(** Mode ['a']: the file is created when absent, the data goes to its
    end. *)
Fixpoint fs_append (path data : string) (f : fs) : fs :=
  match f with
  | [] => [(path, data)]
  | (p, c) :: f' =>
      if String.eqb p path then (p, c ++ data) :: f'
      else (p, c) :: fs_append path data f'
  end.

(** The state the program acts on: the files, and whether the local
    variable [page] of the loop body is bound. *)
Record world : Type := {
  files : fs;
  page : bool
}.

(** A computation runs from a world to an outcome, the world it leaves
    and the events it performed, oldest first. *)
Definition M (A : Type) : Type := world -> outcome A * world * list event.

Definition result {A} (r : outcome A * world * list event) : outcome A :=
  fst (fst r).
Definition final {A} (r : outcome A * world * list event) : world :=
  snd (fst r).
Definition events {A} (r : outcome A * world * list event) : list event :=
  snd r.

Definition ret {A} (a : A) : M A := fun w => (Returns a, w, []).

Definition raise {A} (e : exn) : M A := fun w => (Raises e, w, []).

Definition bind {A B} (m : M A) (f : A -> M B) : M B :=
  fun w =>
    match m w with
    | (Returns a, w1, evs1) =>
        match f a w1 with
        | (r, w2, evs2) => (r, w2, (evs1 ++ evs2)%list)
        end
    | (Raises e, w1, evs1) => (Raises e, w1, evs1)
    end.

(** A call on the outside world: it is recorded, then answers. *)
Definition call {A} (ev : event) (answer : outcome A) : M A :=
  fun w => (answer, w, [ev]).

Definition print (l : console) : M unit := call (EPrint l) (Returns tt).

Definition sleep (ms : nat) : M unit := call (ESleep ms) (Returns tt).

(** What an append leaves at the end of the file, and the exception it
    raises, if any. *)
Definition left_in_file (data : string) (answer : file_answer) : string :=
  match answer with
  | Written => data
  | OpenFails _ => ""
  | WriteFails kept _ => substring 0 kept data
  end.

Definition failure (answer : file_answer) : option exn :=
  match answer with
  | Written => None
  | OpenFails e => Some e
  | WriteFails _ e => Some e
  end.

(** [with open(path, 'a', encoding='utf-8') as f:] followed by the
    writes [chunks], as the file system answers it.  The event records
    the block with the data it hands over, whatever the answer. *)
Definition append_file (path : string) (chunks : list string)
    (answer : file_answer) : M unit :=
  fun w =>
    let data := String.concat "" chunks in
    match answer with
    | Written =>
        (Returns tt,
         {| files := fs_append path data (files w); page := page w |},
         [EAppend path data])
    | OpenFails e => (Raises e, w, [EAppend path data])
    | WriteFails kept e =>
        (Raises e,
         {| files := fs_append path (substring 0 kept data) (files w);
            page := page w |},
         [EAppend path data])
    end.

Definition set_page (b : bool) : M unit :=
  fun w => (Returns tt, {| files := files w; page := b |}, []).

Definition get_page : M bool := fun w => (Returns (page w), w, []).

(** [try: m except Exception as e: h e] *)
Definition try_except {A} (m : M A) (h : exn -> M A) : M A :=
  fun w =>
    match m w with
    | (Raises e, w1, evs1) =>
        match h e w1 with
        | (r, w2, evs2) => (r, w2, (evs1 ++ evs2)%list)
        end
    | r => r
    end.

(** [try: m except TimeoutError: h] *)
Definition try_except_timeout {A} (m : M A) (h : M A) : M A :=
  fun w =>
    match m w with
    | (Raises (TimeoutError _), w1, evs1) =>
        match h w1 with
        | (r, w2, evs2) => (r, w2, (evs1 ++ evs2)%list)
        end
    | r => r
    end.

(** [try: m finally: f] *)
Definition try_finally {A} (m : M A) (f : M unit) : M A :=
  fun w =>
    match m w with
    | (r, w1, evs1) =>
        match f w1 with
        | (Returns _, w2, evs2) => (r, w2, (evs1 ++ evs2)%list)
        | (Raises e, w2, evs2) => (Raises e, w2, (evs1 ++ evs2)%list)
        end
    end.

(** [for i, x in enumerate(xs): body i x], counting from [i]. *)
Fixpoint for_enumerate {A} (i : nat) (xs : list A) (body : nat -> A -> M unit)
    : M unit :=
  match xs with
  | [] => ret tt
  | x :: xs' => bind (body i x) (fun _ => for_enumerate (S i) xs' body)
  end.

End Py.

Declare Scope py_scope.
Delimit Scope py_scope with py.
Notation "x <- m ;; k" := (Py.bind m (fun x => k))
  (at level 61, m at next level, right associativity) : py_scope.
Notation "m ;; k" := (Py.bind m (fun _ => k))
  (at level 61, right associativity) : py_scope.

Definition nl : string := String (ascii_of_nat 10) "".

(* ================================================================== *)
(** * The two interaction functions *)

Module Bot.

Import Py.
Local Open Scope py_scope.

(** Line 12, in milliseconds. *)
Definition RESPONSE_TIMEOUT : N := 900000%N.

(** [int(RESPONSE_TIMEOUT / 60000)] *)
Definition response_minutes : nat := N.to_nat (RESPONSE_TIMEOUT / 60000)%N.

(** Decimal text of a number, as an f-string prints it. *)
Definition str_of_nat (n : nat) : string :=
  NilEmpty.string_of_uint (Nat.to_uint n).

(** [attr == "unchecked"], where [attr] is [None] for an absent
    attribute. *)
Definition is_unchecked (attr : option string) : bool :=
  match attr with
  | Some v => String.eqb v "unchecked"
  | None => false
  end.

(** Line 43. *)
Definition instruction : string :=
  "Search the web for the latest and most comprehensive guides on this topic. Then, generate a detailed, step-by-step content outline with an Introduction, multiple Steps, and a Conclusion. Structure it clearly with '---' separators between sections.".

(** Line 44. *)
Definition outline_prompt (main_topic : string) : string :=
  "Topic: " ++ main_topic ++ nl ++ nl ++ "Instruction: " ++ instruction.

(** Lines 16-78.  [None] is the Python [None]. *)
Definition generate_outline (env : page_env) (main_topic : string)
    : M (option string) :=
  print Banner ;;
  print OutlineStart ;;
  try_except
    (print Navigating ;;
     call EGoto (on_goto env) ;;
     call EWaitInput (on_wait_input env) ;;
     print ChatLoaded ;;
     print EnablingSearch ;;
     call EToolsClick (on_tools_click env) ;;
     call ECheckboxVisible (on_checkbox_visible env) ;;
     state <- call EGetState (on_get_state env) ;;
     (if is_unchecked state
      then call EToggle (on_toggle env) ;; print SearchEnabled
      else print SearchAlreadyEnabled) ;;
     call EBodyClick (on_body_click env) ;;
     sleep 500 ;;
     print SearchReady ;;
     let final_prompt := outline_prompt main_topic in
     print (SendingPrompt (substring 0 80 final_prompt)) ;;
     call (EFill final_prompt) (on_fill env) ;;
     call EPress (on_press env) ;;
     print PromptSent ;;
     call EWaitResponse (on_wait_response env) ;;
     call EAttached (on_attached env) ;;
     sleep 2000 ;;
     try_except_timeout
       (print TryCopyOutline ;;
        call EClick (on_click env))
       (print ClickFailed ;;
        call EDispatch (on_dispatch env)) ;;
     print OutlineCopied ;;
     sleep 1000 ;;
     copied_outline_text <- call EPaste (on_paste env) ;;
     if Str.is_nil copied_outline_text
     then print ClipboardEmpty ;; ret None
     else print OutlineDone ;; ret (Some copied_outline_text))
    (fun e =>
       print (OutlineError (str_of_exn e)) ;;
       ret None).

(** Line 115. *)
Definition research_prompt (section_title content_outline : string) : string :=
  "Do research on the following topic: '" ++ section_title
  ++ "'. The full context of the article outline is as follows:"
  ++ nl ++ nl ++ "---" ++ nl ++ content_outline ++ nl ++ "---".

(** Lines 124-125. *)
Definition no_response_message (section_title : string) : string :=
  "z.ai did not generate a response for '" ++ section_title ++ "' within "
  ++ str_of_nat response_minutes ++ " minutes.".

(** Line 143. *)
Definition copy_failed (section_title : string) : string :=
  "--- ERROR: FAILED TO COPY CONTENT FOR " ++ section_title ++ " ---" ++ nl.

(** Line 146. *)
Definition delimiter (section_title : string) : string :=
  nl ++ nl ++ Str.repeat "=" 20 ++ " " ++ Str.upper section_title ++ " "
  ++ Str.repeat "=" 20 ++ nl ++ nl.

(** Line 153. *)
Definition error_block (section_title : string) (e : exn) : string :=
  nl ++ nl ++ "--- ERROR DURING RESEARCH FOR: " ++ section_title ++ " ---"
  ++ nl ++ "Details: " ++ str_of_exn e ++ nl ++ nl.

(** One interaction with the page for a section, lines 100-141: from
    the first print inside the [try] to the clipboard read, whose text it
    returns. *)
Definition session (env : page_env) (content_outline : string)
    (n i : nat) (section_title : string) : M string :=
  print Rule ;;
  print (Researching section_title (i + 1) n) ;;
  call ENewPage (on_new_page env) ;;
  set_page true ;;
  call EGoto (on_goto env) ;;
  call EWaitInput (on_wait_input env) ;;
  call EToolsClick (on_tools_click env) ;;
  call ECheckboxVisible (on_checkbox_visible env) ;;
  state <- call EGetState (on_get_state env) ;;
  (if is_unchecked state
   then call EToggle (on_toggle env)
   else ret tt) ;;
  call EBodyClick (on_body_click env) ;;
  sleep 500 ;;
  let prompt := research_prompt section_title content_outline in
  call (EFill prompt) (on_fill env) ;;
  call EPress (on_press env) ;;
  print (PromptSentMax response_minutes) ;;
  try_except_timeout
    (call EWaitResponse (on_wait_response env))
    (raise (TimeoutError (no_response_message section_title))) ;;
  call EAttached (on_attached env) ;;
  sleep 2000 ;;
  try_except_timeout
    (print TryCopyResearch ;;
     call EClick (on_click env))
    (print ClickFailed ;;
     call EDispatch (on_dispatch env)) ;;
  print ResearchCopied ;;
  sleep 1000 ;;
  call EPaste (on_paste env).

(** The body of the loop, lines 98-157, for the section at index [i] of
    [n].  An exception of the append of line 145 reaches the handler
    like any other; an exception of the handler's own append passes the
    [finally] and leaves the function. *)
Definition research_section (env : page_env)
    (content_outline output_filepath : string)
    (n i : nat) (section_title : string) : M unit :=
  set_page false ;;
  try_finally
    (try_except
       (pasted <- session env content_outline n i section_title ;;
        let researched_text :=
          if Str.is_nil pasted then copy_failed section_title else pasted in
        append_file output_filepath
          [delimiter section_title; researched_text]
          (on_write_record env) ;;
        print (Appended section_title (BaseName output_filepath)))
       (fun e =>
          print (ResearchError section_title (str_of_exn e)) ;;
          append_file output_filepath [error_block section_title e]
            (on_write_error env)))
    (bound <- get_page ;;
     if bound
     then call EClosePage (Returns tt) ;; print (PageClosed section_title)
     else ret tt).

(** Lines 82-157; [envs i] is the behaviour of the page opened for the
    section at index [i]. *)
Definition research_each_step (envs : nat -> page_env)
    (content_outline output_filepath : string) : M unit :=
  print Banner ;;
  print ResearchStart ;;
  let sections := Outline.sections content_outline in
  match sections with
  | [] => print NoSections ;; ret tt
  | _ :: _ =>
      let section_titles := List.map snd sections in
      print (Found (List.length section_titles) section_titles) ;;
      for_enumerate 0 section_titles
        (fun i section_title =>
           research_section (envs i) content_outline output_filepath
             (List.length section_titles) i section_title)
  end.

End Bot.

(* ================================================================== *)
(** * Reading a run *)

Module Run.

Import Py.

Definition is_toggle (ev : event) : bool :=
  match ev with EToggle => true | _ => false end.

Definition is_click (ev : event) : bool :=
  match ev with EClick => true | _ => false end.


Definition is_new_page (ev : event) : bool :=
  match ev with ENewPage => true | _ => false end.

Definition is_append (ev : event) : bool :=
  match ev with EAppend _ _ => true | _ => false end.

Definition is_paste (ev : event) : bool :=
  match ev with EPaste => true | _ => false end.

Definition count (p : event -> bool) (evs : list event) : nat :=
  List.length (List.filter p evs).

(** The data handed to the appends to [path], oldest first. *)
Fixpoint appended (path : string) (evs : list event) : list string :=
  match evs with
  | [] => []
  | EAppend p data :: evs' =>
      if String.eqb p path then data :: appended path evs'
      else appended path evs'
  | _ :: evs' => appended path evs'
  end.

(** The text of a file, empty while the file does not exist. *)
Definition content (path : string) (w : world) : string :=
  match fs_read path (files w) with
  | Some c => c
  | None => ""
  end.

(** A world to start from: no file, [page] unbound. *)
Definition blank : world := {| files := []; page := false |}.

(** What a section's interaction yields: the clipboard text, or the
    exception that ended it. *)
Definition session_result (env : page_env) (content_outline : string)
    (n i : nat) (section_title : string) : outcome string :=
  result (Bot.session env content_outline n i section_title blank).

(** The record a section leaves in the output file, by what its
    interaction yielded. *)
Definition record_of (section_title : string) (r : outcome string) : string :=
  match r with
  | Returns text =>
      Bot.delimiter section_title
      ++ (if Str.is_nil text then Bot.copy_failed section_title else text)
  | Raises e => Bot.error_block section_title e
  end.

(** The records of the sections [titles], which sit at the indices
    [i], [i+1], ... of an outline with [n] sections. *)
Fixpoint records (envs : nat -> page_env) (content_outline : string)
    (n i : nat) (titles : list string) : list string :=
  match titles with
  | [] => []
  | t :: titles' =>
      record_of t (session_result (envs i) content_outline n i t)
      :: records envs content_outline n (S i) titles'
  end.

(** The loop of lines 97-157 over [titles], entered at index [i]. *)
Definition research_loop (envs : nat -> page_env)
    (content_outline output_filepath : string)
    (n i : nat) (titles : list string) : M unit :=
  for_enumerate i titles
    (fun j section_title =>
       Bot.research_section (envs j) content_outline output_filepath
         n j section_title).

(** ** A pass of the loop in closed form *)

(** The exception that reaches the handler of line 150, if any: that of
    the interaction, or that of the append of the record. *)
Definition handled (env : page_env) (content_outline : string)
    (n i : nat) (section_title : string) : option exn :=
  match session_result env content_outline n i section_title with
  | Raises e => Some e
  | Returns _ => failure (on_write_record env)
  end.

(** How a pass ends: it raises exactly when the handler ran and its own
    append failed. *)
Definition pass_result (env : page_env) (content_outline : string)
    (n i : nat) (section_title : string) : outcome unit :=
  match handled env content_outline n i section_title with
  | None => Returns tt
  | Some _ =>
      match failure (on_write_error env) with
      | Some e => Raises e
      | None => Returns tt
      end
  end.

(** The data a pass hands to the file, in order: the record when the
    interaction returned, then the error block when the handler ran. *)
Definition attempts (env : page_env) (content_outline : string)
    (n i : nat) (section_title : string) : list string :=
  (match session_result env content_outline n i section_title with
   | Returns text => [record_of section_title (Returns text)]
   | Raises _ => []
   end
   ++ match handled env content_outline n i section_title with
      | Some e => [Bot.error_block section_title e]
      | None => []
      end)%list.

(** What a pass leaves at the end of the file. *)
Definition pass_written (env : page_env) (content_outline : string)
    (n i : nat) (section_title : string) : string :=
  match session_result env content_outline n i section_title with
  | Returns text =>
      left_in_file (record_of section_title (Returns text))
        (on_write_record env)
  | Raises _ => ""
  end
  ++ match handled env content_outline n i section_title with
     | Some e =>
         left_in_file (Bot.error_block section_title e) (on_write_error env)
     | None => ""
     end.

(** The loop over [titles] from index [i]: how it ends, what it leaves at
    the end of the file, the data it hands to the file and how many
    passes it makes; a pass that raises is the last one. *)
Fixpoint loop_result (envs : nat -> page_env) (content_outline : string)
    (n i : nat) (titles : list string) : outcome unit :=
  match titles with
  | [] => Returns tt
  | t :: titles' =>
      match pass_result (envs i) content_outline n i t with
      | Returns _ => loop_result envs content_outline n (S i) titles'
      | Raises e => Raises e
      end
  end.

Fixpoint loop_written (envs : nat -> page_env) (content_outline : string)
    (n i : nat) (titles : list string) : string :=
  match titles with
  | [] => ""
  | t :: titles' =>
      pass_written (envs i) content_outline n i t
      ++ match pass_result (envs i) content_outline n i t with
         | Returns _ => loop_written envs content_outline n (S i) titles'
         | Raises _ => ""
         end
  end.

Fixpoint loop_attempts (envs : nat -> page_env) (content_outline : string)
    (n i : nat) (titles : list string) : list string :=
  match titles with
  | [] => []
  | t :: titles' =>
      (attempts (envs i) content_outline n i t
       ++ match pass_result (envs i) content_outline n i t with
          | Returns _ => loop_attempts envs content_outline n (S i) titles'
          | Raises _ => []
          end)%list
  end.

Fixpoint passes_run (envs : nat -> page_env) (content_outline : string)
    (n i : nat) (titles : list string) : nat :=
  match titles with
  | [] => 0
  | t :: titles' =>
      S (match pass_result (envs i) content_outline n i t with
         | Returns _ => passes_run envs content_outline n (S i) titles'
         | Raises _ => 0
         end)
  end.

(** Every append the loop over [titles] makes is answered [Written]: the
    append of the record where the interaction returns, the append of
    the error block where it raises. *)
Fixpoint appends_succeed (envs : nat -> page_env) (content_outline : string)
    (n i : nat) (titles : list string) : Prop :=
  match titles with
  | [] => True
  | t :: titles' =>
      match session_result (envs i) content_outline n i t with
      | Returns _ => on_write_record (envs i) = Written
      | Raises _ => on_write_error (envs i) = Written
      end /\
      appends_succeed envs content_outline n (S i) titles'
  end.

Definition is_get_state (ev : event) : bool :=
  match ev with EGetState => true | _ => false end.

(** The events that follow the first event in the class [p]. *)
Fixpoint after (p : event -> bool) (evs : list event) : list event :=
  match evs with
  | [] => []
  | ev :: evs' => if p ev then evs' else after p evs'
  end.


(** Events that talk to the page or the clipboard. *)
Definition is_interaction (ev : event) : bool :=
  match ev with
  | EPrint _ | ESleep _ | EAppend _ _ | EClosePage => false
  | _ => true
  end.

(** The record layout of the output format: two newlines, the title in
    capitals between two runs of twenty [=], a newline, then a body. *)
Definition delimited (section_title rec : string) : Prop :=
  exists body : string,
    rec = nl ++ nl ++ Str.repeat "=" 20 ++ " " ++ Str.upper section_title
          ++ " " ++ Str.repeat "=" 20 ++ nl ++ body.

(** An environment in which every call succeeds, the capability reads
    [state] and the clipboard holds [text]. *)
Definition smooth (state : option string) (text : string) : page_env :=
  {| on_new_page := Returns tt; on_goto := Returns tt;
     on_wait_input := Returns tt; on_tools_click := Returns tt;
     on_checkbox_visible := Returns tt; on_get_state := Returns state;
     on_toggle := Returns tt; on_body_click := Returns tt;
     on_fill := Returns tt; on_press := Returns tt;
     on_wait_response := Returns tt; on_attached := Returns tt;
     on_click := Returns tt; on_dispatch := Returns tt;
     on_paste := Returns text;
     on_write_record := Written; on_write_error := Written |}.


End Run.

(* ================================================================== *)
(** * Example runs *)

Module Scenario.

Import Py.

(** An outline with four sections, each closed by
    a separator line. *)
Definition sourdough_outline : string :=
  "## Introduction: why sourdough" ++ nl ++ "---" ++ nl
  ++ "## Step 1: the starter" ++ nl ++ "---" ++ nl
  ++ "## Step 2: the dough" ++ nl ++ "---" ++ nl
  ++ "## Conclusion: enjoy" ++ nl ++ "---" ++ nl.

(** Every page answers with text, except the one for the third section,
    whose response never arrives. *)
Definition sourdough_envs (i : nat) : page_env :=
  if Nat.eqb i 2 then
    {| on_new_page := Returns tt; on_goto := Returns tt;
       on_wait_input := Returns tt; on_tools_click := Returns tt;
       on_checkbox_visible := Returns tt;
       on_get_state := Returns (Some "checked");
       on_toggle := Returns tt; on_body_click := Returns tt;
       on_fill := Returns tt; on_press := Returns tt;
       on_wait_response := Raises (TimeoutError "Timeout 900000ms exceeded.");
       on_attached := Returns tt;
       on_click := Returns tt; on_dispatch := Returns tt;
       on_paste := Returns "stale";
       on_write_record := Written; on_write_error := Written |}
  else Run.smooth (Some "unchecked") "researched text".

(** A page whose navigation fails at once. *)
Definition unreachable : page_env :=
  {| on_new_page := Returns tt;
     on_goto := Raises (OtherError "net::ERR_INTERNET_DISCONNECTED");
     on_wait_input := Returns tt; on_tools_click := Returns tt;
     on_checkbox_visible := Returns tt;
     on_get_state := Returns (Some "checked");
     on_toggle := Returns tt; on_body_click := Returns tt;
     on_fill := Returns tt; on_press := Returns tt;
     on_wait_response := Returns tt; on_attached := Returns tt;
     on_click := Returns tt; on_dispatch := Returns tt;
     on_paste := Returns "";
     on_write_record := Written; on_write_error := Written |}.

(** Pages that answer with text while every [open] of the output file
    fails, as for a file name that is too long. *)
Definition unwritable : page_env :=
  {| on_new_page := Returns tt; on_goto := Returns tt;
     on_wait_input := Returns tt; on_tools_click := Returns tt;
     on_checkbox_visible := Returns tt;
     on_get_state := Returns (Some "checked");
     on_toggle := Returns tt; on_body_click := Returns tt;
     on_fill := Returns tt; on_press := Returns tt;
     on_wait_response := Returns tt; on_attached := Returns tt;
     on_click := Returns tt; on_dispatch := Returns tt;
     on_paste := Returns "researched text";
     on_write_record := OpenFails (OtherError "[Errno 36] File name too long");
     on_write_error := OpenFails (OtherError "[Errno 36] File name too long") |}.

(** Pages that answer with text while the output file is locked for a
    moment: the [open] of line 145 fails, the one of line 152 succeeds. *)
Definition locked_once : page_env :=
  {| on_new_page := Returns tt; on_goto := Returns tt;
     on_wait_input := Returns tt; on_tools_click := Returns tt;
     on_checkbox_visible := Returns tt;
     on_get_state := Returns (Some "checked");
     on_toggle := Returns tt; on_body_click := Returns tt;
     on_fill := Returns tt; on_press := Returns tt;
     on_wait_response := Returns tt; on_attached := Returns tt;
     on_click := Returns tt; on_dispatch := Returns tt;
     on_paste := Returns "researched text";
     on_write_record := OpenFails (OtherError "[Errno 13] Permission denied: 'out.txt'");
     on_write_error := Written |}.

(** An outline laid out as line 43 asks for it, with a separator between
    one section and the next. *)
Definition separated_outline : string :=
  "## Introduction: why sourdough" ++ nl ++ "---" ++ nl
  ++ "## Step 1: the starter" ++ nl ++ "---" ++ nl
  ++ "## Conclusion: enjoy" ++ nl.

End Scenario.

(* ================================================================== *)
(** * The interaction protocol *)

Module Protocol.

Import Py.

(** Whether a call returned rather than raised. *)
Definition returns {A} (o : outcome A) : bool :=
  match o with Returns _ => true | Raises _ => false end.

(** The page calls from the click on the page body to the click on the
    copy button, in program order: the exception of the first one that
    fails.  A timeout of the direct click is a failure only if the
    synthetic click fails too; [on_response_timeout] is what becomes of
    an exception of the wait for the response. *)
Definition failure_after_toggle (env : page_env)
    (on_response_timeout : exn -> exn) : option exn :=
  match on_body_click env with Raises e => Some e | Returns _ =>
  match on_fill env with Raises e => Some e | Returns _ =>
  match on_press env with Raises e => Some e | Returns _ =>
  match on_wait_response env with
  | Raises e => Some (on_response_timeout e) | Returns _ =>
  match on_attached env with Raises e => Some e | Returns _ =>
  match on_click env with
  | Returns _ => None
  | Raises (OtherError m) => Some (OtherError m)
  | Raises (TimeoutError _) =>
      match on_dispatch env with Raises e => Some e | Returns _ => None end
  end end end end end end.

(** The same from the navigation on; the checkbox is clicked, and can
    fail, only when its state reads "unchecked". *)
Definition first_failure (env : page_env) (on_response_timeout : exn -> exn)
    : option exn :=
  match on_goto env with Raises e => Some e | Returns _ =>
  match on_wait_input env with Raises e => Some e | Returns _ =>
  match on_tools_click env with Raises e => Some e | Returns _ =>
  match on_checkbox_visible env with Raises e => Some e | Returns _ =>
  match on_get_state env with Raises e => Some e | Returns state =>
  if Bot.is_unchecked state then
    match on_toggle env with
    | Raises e => Some e
    | Returns _ => failure_after_toggle env on_response_timeout
    end
  else failure_after_toggle env on_response_timeout
  end end end end end.

(** Lines 123-125: a timeout of the wait for the response is replaced by
    the message naming the section; anything else passes. *)
Definition response_timeout (section_title : string) (e : exn) : exn :=
  match e with
  | TimeoutError _ => TimeoutError (Bot.no_response_message section_title)
  | OtherError m => OtherError m
  end.

(** The calls on the page and the clipboard that a complete interaction
    makes, in order; [toggled] and [fell_back] tell whether the Web
    Search checkbox was clicked and whether the synthetic click was
    used. *)
Definition script (toggled fell_back : bool) (prompt : string) : list event :=
  ([EGoto; EWaitInput; EToolsClick; ECheckboxVisible; EGetState]
   ++ (if toggled then [EToggle] else [])
   ++ [EBodyClick; EFill prompt; EPress; EWaitResponse; EAttached; EClick]
   ++ (if fell_back then [EDispatch] else [])
   ++ [EPaste])%list.

Definition is_close (ev : event) : bool :=
  match ev with EClosePage => true | _ => false end.

(** How many pages the loop over [titles] from index [i] could open,
    among the passes it makes. *)
Fixpoint opened (envs : nat -> page_env) (content_outline : string)
    (n i : nat) (titles : list string) : nat :=
  match titles with
  | [] => O
  | t :: titles' =>
      (if returns (on_new_page (envs i)) then 1 else 0)
      + match Run.pass_result (envs i) content_outline n i t with
        | Returns _ => opened envs content_outline n (S i) titles'
        | Raises _ => 0
        end
  end.

End Protocol.

(* ================================================================== *)
(** * Characters of a file name *)

Module FileName.

(** Neither whitespace nor a character that means something in a path. *)
Definition plain (c : ascii) : bool :=
  negb (Str.isspace c) && negb (Ascii.eqb c "/") && negb (Ascii.eqb c "\")
  && negb (Ascii.eqb c ".") && negb (Ascii.eqb c ":").

(** A letter, a digit or an underscore. *)
Definition clean (c : ascii) : bool :=
  Str.isalnum c || Ascii.eqb c Str.underscore.

End FileName.

(* ================================================================== *)
(** * The main block (lines 161-203) *)

Module Main.

Import Py.

(** How the program ends: the [exit()] of line 165, the end of the
    script, or an exception nothing catches. *)
Inductive ending : Type :=
| Exited
| Finished
| Uncaught (e : exn).

(** The console lines of the main block. *)
Inductive notice : Type :=
| NoTopic                        (* 164 *)
| FolderCreated                  (* 169 *)
| Launching                      (* 177 *)
| BrowserReady                   (* 185 *)
| Separator                      (* 193 *)
| AllProcessed                   (* 194 *)
| Skipped                        (* 196 *)
| Critical (e : string)          (* 199 *)
| TaskCompleted (path : string). (* 203 *)

(** What the main block does, in order; [Inner] is an event of
    [generate_outline] or [research_each_step]. *)
Inductive step : Type :=
| Say (l : notice)
| PathExists          (* os.path.exists(RESEARCH_DIR) *)
| MakeDirs            (* os.makedirs(RESEARCH_DIR) *)
| StartPlaywright     (* entering [with sync_playwright() as p] *)
| Launch              (* p.chromium.launch_persistent_context *)
| NewPage             (* browser_context.new_page(), line 187 *)
| ClosePage           (* page_for_outline.close() *)
| CloseContext        (* browser_context.close() *)
| StopPlaywright      (* leaving the [with] block *)
| Inner (ev : event).

(** What the outside world answers to the main block.  Closing the
    page, closing the browser context and leaving the [with] block are
    taken to succeed. *)
Record env : Type := {
  dir_exists : bool;
  on_makedirs : outcome unit;
  on_start : outcome unit;
  on_launch : outcome unit;
  on_outline_page : outcome unit;
  outline_page : page_env;
  section_pages : nat -> page_env
}.

(** The state of the main block: the world of the two functions and
    whether [browser_context] is bound to a context. *)
Record state : Type := {
  inner : world;
  browser_context : bool
}.

Definition T (A : Type) : Type := state -> outcome A * state * list step.

Definition ret {A} (a : A) : T A := fun s => (Returns a, s, []).

Definition bind {A B} (m : T A) (f : A -> T B) : T B :=
  fun s =>
    match m s with
    | (Returns a, s1, steps1) =>
        match f a s1 with
        | (r, s2, steps2) => (r, s2, (steps1 ++ steps2)%list)
        end
    | (Raises e, s1, steps1) => (Raises e, s1, steps1)
    end.

Definition call {A} (st : step) (answer : outcome A) : T A :=
  fun s => (answer, s, [st]).

Definition say (l : notice) : T unit := call (Say l) (Returns tt).

(** A call of one of the two functions: it runs on the inner world and
    its events are relayed. *)
Definition lift {A} (m : M A) : T A :=
  fun s =>
    match m (inner s) with
    | (r, w, evs) =>
        (r, {| inner := w; browser_context := browser_context s |},
         List.map Inner evs)
    end.

Definition set_context (b : bool) : T unit :=
  fun s => (Returns tt, {| inner := inner s; browser_context := b |}, []).

Definition get_context : T bool :=
  fun s => (Returns (browser_context s), s, []).

Definition try_except {A} (m : T A) (h : exn -> T A) : T A :=
  fun s =>
    match m s with
    | (Raises e, s1, steps1) =>
        match h e s1 with
        | (r, s2, steps2) => (r, s2, (steps1 ++ steps2)%list)
        end
    | r => r
    end.

Definition try_finally {A} (m : T A) (f : T unit) : T A :=
  fun s =>
    match m s with
    | (r, s1, steps1) =>
        match f s1 with
        | (Returns _, s2, steps2) => (r, s2, (steps1 ++ steps2)%list)
        | (Raises e, s2, steps2) => (Raises e, s2, (steps1 ++ steps2)%list)
        end
    end.

End Main.

Declare Scope main_scope.
Delimit Scope main_scope with main.
Notation "x <- m ;; k" := (Main.bind m (fun x => k))
  (at level 61, m at next level, right associativity) : main_scope.
Notation "m ;; k" := (Main.bind m (fun _ => k))
  (at level 61, right associativity) : main_scope.

Module Script.

Import Py Main.
Local Open Scope main_scope.

(** Lines 166-203, after the topic was found not empty.  [sep] is the
    platform's [os.sep], [timestamp] what [strftime] returned. *)
Definition run (e : env) (sep main_topic timestamp : string) : T unit :=
  present <- call PathExists (Returns (dir_exists e)) ;;
  (if present then ret tt
   else call MakeDirs (on_makedirs e) ;; say FolderCreated) ;;
  let output_filename := Naming.output_filename main_topic timestamp in
  let output_filepath :=
    Naming.path_join sep Naming.RESEARCH_DIR output_filename in
  call StartPlaywright (on_start e) ;;
  try_finally
    (say Launching ;;
     set_context false ;;
     try_finally
       (try_except
          (call Launch (on_launch e) ;;
           set_context true ;;
           say BrowserReady ;;
           call NewPage (on_outline_page e) ;;
           outline <- lift (Bot.generate_outline (outline_page e) main_topic) ;;
           call ClosePage (Returns tt) ;;
           match outline with
           | Some text =>
               if Str.is_nil text then say Skipped
               else
                 lift (Bot.research_each_step (section_pages e) text
                         output_filepath) ;;
                 say Separator ;;
                 say AllProcessed
           | None => say Skipped
           end)
          (fun ex => say (Critical (str_of_exn ex))))
       (bound <- get_context ;;
        (if bound then call CloseContext (Returns tt) else ret tt) ;;
        say (TaskCompleted output_filepath)))
    (call StopPlaywright (Returns tt)).

(** The whole main block, for the topic that [input] returned. *)
Definition main (e : env) (sep main_topic timestamp : string) (w : world)
    : ending * world * list step :=
  if Str.is_nil main_topic then (Exited, w, [Say NoTopic])
  else
    match run e sep main_topic timestamp
            {| inner := w; browser_context := false |} with
    | (Returns _, s, steps) => (Finished, inner s, steps)
    | (Raises ex, s, steps) => (Uncaught ex, inner s, steps)
    end.

Definition is_say (st : step) : bool :=
  match st with Say _ => true | _ => false end.

Definition is_inner (st : step) : bool :=
  match st with Inner _ => true | _ => false end.

Definition is_launch (st : step) : bool :=
  match st with Launch => true | _ => false end.

Definition is_close_context (st : step) : bool :=
  match st with CloseContext => true | _ => false end.

Definition is_makedirs (st : step) : bool :=
  match st with MakeDirs => true | _ => false end.

Definition count (p : step -> bool) (steps : list step) : nat :=
  List.length (List.filter p steps).

(** The events of the two functions among the steps, in order. *)
Fixpoint inner_events (steps : list step) : list event :=
  match steps with
  | [] => []
  | Inner ev :: steps' => ev :: inner_events steps'
  | _ :: steps' => inner_events steps'
  end.

(** A world in which the research directory exists and the browser and
    the outline page come up, with the given pages. *)
Definition ready (outline : page_env) (sections : nat -> page_env) : env :=
  {| dir_exists := true; on_makedirs := Returns tt; on_start := Returns tt;
     on_launch := Returns tt; on_outline_page := Returns tt;
     outline_page := outline; section_pages := sections |}.

(** Whether the directory is there or could be made and the Playwright
    driver came up. *)
Definition set_up (e : env) : bool :=
  (dir_exists e || Protocol.returns (on_makedirs e))
  && Protocol.returns (on_start e).

(** The path of line 174. *)
Definition report_path (sep main_topic timestamp : string) : string :=
  Naming.path_join sep Naming.RESEARCH_DIR
    (Naming.output_filename main_topic timestamp).

(** [l] ends with [suffix]. *)
Definition ends_with {A} (suffix l : list A) : Prop :=
  exists before, l = (before ++ suffix)%list.

End Script.

(* ================================================================== *)
(** * Facts about strings *)

Lemma append_nil_r (s : string) : s ++ "" = s.
Proof. induction s as [|c s IH]; simpl; [reflexivity | now rewrite IH]. Qed.

Lemma append_assoc (a b c : string) : (a ++ b) ++ c = a ++ (b ++ c).
Proof. induction a as [|x a IH]; simpl; [reflexivity | now rewrite IH]. Qed.

Lemma length_append (a b : string) :
  String.length (a ++ b) = String.length a + String.length b.
Proof. induction a as [|x a IH]; simpl; [reflexivity | now rewrite IH]. Qed.

Lemma is_nil_true (s : string) : Str.is_nil s = true <-> s = "".
Proof. destruct s; simpl; split; congruence. Qed.

Lemma all_append p (a b : string) :
  Str.all p (a ++ b) = Str.all p a && Str.all p b.
Proof.
  induction a as [|x a IH]; simpl; [reflexivity|].
  now rewrite IH, andb_assoc.
Qed.

Lemma all_filter p (s : string) : Str.all p (Str.filter p s) = true.
Proof.
  induction s as [|c s IH]; simpl; [reflexivity|].
  destruct (p c) eqn:E; simpl; [now rewrite E|assumption].
Qed.

Lemma filter_none p (s : string) :
  Str.all (fun c => negb (p c)) s = true -> Str.filter p s = "".
Proof.
  induction s as [|c s IH]; simpl; [reflexivity|].
  intros H. apply andb_true_iff in H as [Hc Hs].
  apply negb_true_iff in Hc. rewrite Hc. now apply IH.
Qed.

Lemma filter_all p (s : string) : Str.all p s = true -> Str.filter p s = s.
Proof.
  induction s as [|c s IH]; simpl; [reflexivity|].
  intros H. apply andb_true_iff in H as [Hc Hs].
  rewrite Hc. now rewrite IH.
Qed.

(** [rstrip] splits a string into what it returns and a whitespace
    suffix, and what it returns does not end in whitespace. *)
Lemma rstrip_split (s : string) :
  exists ws, s = Str.rstrip s ++ ws /\ Str.all Str.isspace ws = true.
Proof.
  induction s as [|c s [ws [E W]]]; simpl.
  - now exists "".
  - destruct (Str.is_nil (Str.rstrip s)) eqn:N; simpl.
    + apply is_nil_true in N. rewrite N in E. simpl in E. subst ws.
      destruct (Str.isspace c) eqn:C.
      * exists (String c s). simpl. now rewrite C.
      * exists s. simpl. split; [now rewrite N | assumption].
    + exists ws. simpl. split; [now rewrite <- E | assumption].
Qed.

Lemma rstrip_ends (s : string) : Str.ends_in Str.isspace (Str.rstrip s) = false.
Proof.
  induction s as [|c s IH]; simpl; [reflexivity|].
  destruct (Str.rstrip s) as [|d r] eqn:R; simpl.
  - destruct (Str.isspace c) eqn:C; simpl; [reflexivity | assumption].
  - exact IH.
Qed.

Lemma rstrip_fixed (s : string) :
  Str.ends_in Str.isspace s = false -> Str.rstrip s = s.
Proof.
  induction s as [|c s IH]; simpl; [reflexivity|].
  destruct s as [|d s'].
  - simpl. intros ->. reflexivity.
  - intros H. rewrite (IH H). reflexivity.
Qed.

(** Among the characters line 172 keeps, the space is the only
    whitespace. *)
Lemma kept_space_only (c : ascii) :
  Naming.kept c = true -> Str.isspace c = true -> c = Str.space.
Proof.
  destruct c as [[] [] [] [] [] [] [] []]; vm_compute; congruence.
Qed.

Lemma spaces_only (ws : string) :
  Str.all Naming.kept ws = true -> Str.all Str.isspace ws = true ->
  ws = Str.repeat Str.space (String.length ws).
Proof.
  induction ws as [|c ws IH]; simpl; [reflexivity|].
  intros K W.
  apply andb_true_iff in K as [Kc Ks]. apply andb_true_iff in W as [Wc Ws].
  rewrite (kept_space_only c Kc Wc). f_equal. now apply IH.
Qed.

Lemma replace_clean (s : string) :
  Str.all Naming.kept s = true ->
  Str.all (fun c => Str.isalnum c || Ascii.eqb c Str.underscore)
    (Str.replace Str.space Str.underscore s) = true.
Proof.
  unfold Str.replace.
  induction s as [|c s IH]; simpl; [reflexivity|].
  intros K. apply andb_true_iff in K as [Kc Ks].
  rewrite (IH Ks), andb_true_r.
  destruct (Ascii.eqb c Str.space) eqn:E.
  - apply orb_true_r.
  - unfold Naming.kept in Kc. rewrite E, orb_false_r in Kc. exact Kc.
Qed.

(* ================================================================== *)
(** * File naming *)

(** C7.  Sanitizing a topic keeps, in order, exactly the characters that
    are alphanumeric, a space or an underscore, drops the spaces at the
    end of what is kept, and turns every remaining space into an
    underscore; the result holds only alphanumerics and underscores.
    The topic "AI & ML: 2024!" gives "AI__ML_2024". *)
Theorem safe_topic_sanitizes :
  Naming.safe_topic "AI & ML: 2024!" = "AI__ML_2024" /\
  forall topic : string,
    exists (pre : string) (n : nat),
      Str.filter Naming.kept topic = pre ++ Str.repeat Str.space n /\
      Str.ends_in Str.isspace pre = false /\
      Naming.safe_topic topic = Str.replace Str.space Str.underscore pre /\
      Str.all (fun c => Str.isalnum c || Ascii.eqb c Str.underscore)
        (Naming.safe_topic topic) = true.
Proof.
  split; [reflexivity|].
  intros topic. unfold Naming.safe_topic.
  set (kept := Str.filter Naming.kept topic).
  destruct (rstrip_split kept) as [ws [E W]].
  assert (K : Str.all Naming.kept kept = true) by apply all_filter.
  rewrite E, all_append in K. apply andb_true_iff in K as [Kpre Kws].
  exists (Str.rstrip kept), (String.length ws).
  repeat split.
  - rewrite <- (spaces_only ws Kws W). exact E.
  - apply rstrip_ends.
  - now apply replace_clean.
Qed.

(** C10.  The empty-topic check of line 163 looks at the raw topic: a
    non-empty topic made only of characters that line 172 drops passes
    it, its sanitized component is empty, and the file name is
    [article_research__<timestamp>.txt] under the research directory. *)
Theorem unsanitizable_topic_path (sep topic timestamp : string) :
  topic <> "" ->
  Str.all (fun c => negb (Naming.kept c)) topic = true ->
  Naming.safe_topic topic = "" /\
  Naming.output_filename topic timestamp
    = "article_research__" ++ timestamp ++ ".txt" /\
  Naming.output_filepath sep topic timestamp
    = Some (Naming.RESEARCH_DIR ++ sep
            ++ "article_research__" ++ timestamp ++ ".txt").
Proof.
  intros NE H.
  assert (S : Naming.safe_topic topic = "").
  { unfold Naming.safe_topic. now rewrite (filter_none _ _ H). }
  split; [exact S|].
  unfold Naming.output_filepath, Naming.output_filename, Naming.path_join.
  rewrite S. destruct topic; [congruence|]. simpl. auto.
Qed.

Lemma unsanitizable_topic_path_witness :
  Naming.safe_topic "!!!" = "" /\
  Naming.output_filename "!!!" "20240101_120000"
    = "article_research__20240101_120000.txt" /\
  Naming.output_filepath "/" "!!!" "20240101_120000"
    = Some "article_research/article_research__20240101_120000.txt".
Proof.
  apply (unsanitizable_topic_path "/" "!!!" "20240101_120000").
  - discriminate.
  - reflexivity.
Defined.

(** The empty topic is the one that ends the program at line 165. *)
Lemma empty_topic_exits (sep topic timestamp : string) :
  Naming.output_filepath sep topic timestamp = None <-> topic = "".
Proof.
  unfold Naming.output_filepath. destruct topic; simpl; split; congruence.
Qed.

(* ================================================================== *)
(** * The matcher on the pattern of line 89 *)

Module OutlineFacts.

Import Re Outline.

Lemma rounds_lazy_dot R (k : string -> captures -> option R) caps :
  forall fuel s, String.length s <= fuel ->
    rounds (fun s1 c1 k1 => exec dot s1 c1 k1) false k fuel s caps
    = first_suffix (fun s' => k s' caps) s.
Proof.
  induction fuel as [|fuel IH]; intros s L.
  - destruct s; [|simpl in L; lia]. simpl. destruct (k "" caps); reflexivity.
  - destruct s as [|c s]; simpl.
    + destruct (k "" caps); reflexivity.
    + destruct (k (String c s) caps); [reflexivity|].
      assert (Nat.ltb (String.length s) (S (String.length s)) = true) as ->
        by (apply Nat.ltb_lt; lia).
      apply IH. simpl in L. lia.
Qed.

Lemma rounds_greedy_class R p (k : string -> captures -> option R) caps :
  forall fuel s, String.length s <= fuel ->
    rounds (fun s1 c1 k1 => exec (Chr p) s1 c1 k1) true k fuel s caps
    = longest p (fun s' => k s' caps) s.
Proof.
  induction fuel as [|fuel IH]; intros s L.
  - destruct s; [|simpl in L; lia]. reflexivity.
  - destruct s as [|c s]; simpl; [reflexivity|].
    destruct (p c); [|reflexivity].
    assert (Nat.ltb (String.length s) (S (String.length s)) = true) as ->
      by (apply Nat.ltb_lt; lia).
    rewrite IH by (simpl in L; lia). reflexivity.
Qed.

Lemma exec_seq R r1 r2 s caps (k : string -> captures -> option R) :
  exec (Seq r1 r2) s caps k = exec r1 s caps (fun s1 c1 => exec r2 s1 c1 k).
Proof. reflexivity. Qed.

Lemma exec_alt R r1 r2 s caps (k : string -> captures -> option R) :
  exec (Alt r1 r2) s caps k
  = match exec r1 s caps k with Some x => Some x | None => exec r2 s caps k end.
Proof. reflexivity. Qed.

Lemma exec_chr R p s caps (k : string -> captures -> option R) :
  exec (Chr p) s caps k
  = match s with
    | String c s' => if p c then k s' caps else None
    | EmptyString => None
    end.
Proof. reflexivity. Qed.

Lemma exec_group R n r s caps (k : string -> captures -> option R) :
  exec (Group n r) s caps k
  = exec r s caps (fun s1 c1 => k s1 ((n, consumed s s1) :: c1)).
Proof. reflexivity. Qed.

Lemma exec_ahead R r s caps (k : string -> captures -> option R) :
  exec (Ahead r) s caps k
  = match exec r s caps (fun _ c1 => Some c1) with
    | Some c1 => k s c1
    | None => None
    end.
Proof. reflexivity. Qed.

Lemma exec_lazy_dot R s caps (k : string -> captures -> option R) :
  exec (Star false dot) s caps k = first_suffix (fun s' => k s' caps) s.
Proof. apply rounds_lazy_dot. lia. Qed.

Lemma exec_greedy_class R p s caps (k : string -> captures -> option R) :
  exec (Star true (Chr p)) s caps k = longest p (fun s' => k s' caps) s.
Proof. apply rounds_greedy_class. lia. Qed.

Lemma exec_lit R l : forall s caps (k : string -> captures -> option R),
  exec (lit l) s caps k
  = if Str.starts_with l s then k (Str.drop (String.length l) s) caps else None.
Proof.
  induction l as [|a l IH]; intros s caps k; simpl.
  - destruct s; reflexivity.
  - destruct s as [|b s]; [reflexivity|].
    destruct (Ascii.eqb a b); simpl; [apply IH | reflexivity].
Qed.

(** When the continuation rejects whatever begins in the class, the
    greedy run is the whole run. *)
Lemma longest_all R p (k : string -> option R) :
  (forall c s, p c = true -> k (String c s) = None) ->
  forall s, longest p k s = k (Str.drop_while p s).
Proof.
  intros N. induction s as [|c s IH]; simpl; [reflexivity|].
  destruct (p c) eqn:P; [|reflexivity].
  rewrite IH. destruct (k (Str.drop_while p s)) eqn:K; [reflexivity|].
  now apply N.
Qed.

Lemma starts_with_same_head a p b q s :
  Str.starts_with (String a p) s = true ->
  Str.starts_with (String b q) s = true -> a = b.
Proof.
  destruct s as [|c s]; simpl; [discriminate|].
  intros H1 H2.
  apply andb_true_iff in H1 as [H1 _]. apply andb_true_iff in H2 as [H2 _].
  apply Ascii.eqb_eq in H1, H2. congruence.
Qed.

Lemma starts_with_split p : forall s,
  Str.starts_with p s = true -> s = p ++ Str.drop (String.length p) s.
Proof.
  induction p as [|a p IH]; intros s H; simpl in *.
  - destruct s; reflexivity.
  - destruct s as [|b s]; [discriminate|].
    apply andb_true_iff in H as [E H]. apply Ascii.eqb_eq in E. subst b.
    now rewrite <- (IH s H).
Qed.

Lemma take_drop_while p s : s = Str.take_while p s ++ Str.drop_while p s.
Proof.
  induction s as [|c s IH]; simpl; [reflexivity|].
  destruct (p c); simpl; [now rewrite <- IH | reflexivity].
Qed.

Lemma label_split s t rest : label s = Some (t, rest) -> s = t ++ rest.
Proof.
  unfold label.
  destruct (Str.starts_with "Introduction" s) eqn:I.
  { intros H. injection H as <- <-. now apply (starts_with_split "Introduction"). }
  destruct (Str.starts_with "Step " s) eqn:S.
  { destruct (Str.is_nil _); [discriminate|].
    intros H. injection H as <- <-.
    transitivity ("Step " ++ Str.drop 5 s);
      [apply (starts_with_split "Step " s S)|].
    simpl. now rewrite <- take_drop_while. }
  destruct (Str.starts_with "Conclusion" s) eqn:C; [|discriminate].
  intros H. injection H as <- <-. now apply (starts_with_split "Conclusion").
Qed.

Lemma consumed_append a b : consumed (a ++ b) b = a.
Proof.
  unfold consumed. rewrite length_append.
  replace (String.length a + String.length b - String.length b)
    with (String.length a) by lia.
  induction a as [|c a IH]; simpl.
  - destruct b; reflexivity.
  - now rewrite IH.
Qed.

(** The label alternatives, for a continuation that wants a colon
    next. *)
Lemma exec_label R s caps (k : string -> captures -> option R) :
  (forall s' c', Str.starts_with ":" s' = false -> k s' c' = None) ->
  exec Outline.label_re s caps k
  = match label s with
    | Some (_, rest) => k rest caps
    | None => None
    end.
Proof.
  intros N. unfold Outline.label_re, label, plus.
  rewrite !exec_alt, exec_seq, !exec_lit.
  destruct (Str.starts_with "Introduction" s) eqn:I.
  { destruct (k _ caps) eqn:K; [reflexivity|].
    destruct (Str.starts_with "Step " s) eqn:S.
    - pose proof (starts_with_same_head _ _ _ _ _ I S). discriminate.
    - destruct (Str.starts_with "Conclusion" s) eqn:C; [|reflexivity].
      pose proof (starts_with_same_head _ _ _ _ _ I C). discriminate. }
  destruct (Str.starts_with "Step " s) eqn:S.
  { assert (C : Str.starts_with "Conclusion" s = false).
    { destruct (Str.starts_with "Conclusion" s) eqn:C; [|reflexivity].
      pose proof (starts_with_same_head _ _ _ _ _ S C). discriminate. }
    rewrite C. cbn [String.length].
    rewrite exec_seq, exec_chr.
    destruct (Str.drop 5 s) as [|d s6]; [reflexivity|].
    cbn [Str.take_while Str.drop_while].
    destruct (Str.isdigit d) eqn:D; [|reflexivity].
    cbn [Str.is_nil].
    rewrite exec_greedy_class, longest_all.
    - destruct (k _ caps); reflexivity.
    - intros c s' P. apply N.
      destruct c as [[] [] [] [] [] [] [] []]; try reflexivity; discriminate P. }
  destruct (Str.starts_with "Conclusion" s); reflexivity.
Qed.

Lemma match_at_section s :
  match_at Outline.section_re s
  = match section_at s with
    | Some (span, title, rest) => Some (rest, [(1, span); (2, title)])
    | None => None
    end.
Proof.
  unfold match_at, Outline.section_re, section_at.
  rewrite exec_seq, exec_group, exec_seq, exec_lit.
  destruct (Str.starts_with "##" s); [|reflexivity].
  cbn [String.length]. rewrite exec_seq, exec_chr.
  destruct (Str.drop 2 s) as [|w s0]; [reflexivity|].
  destruct (Str.isspace w); [|reflexivity].
  rewrite exec_seq, exec_group, exec_label.
  - destruct (label s0) as [[title s1]|] eqn:L; [|reflexivity].
    rewrite exec_seq, exec_lit.
    destruct (Str.starts_with ":" s1); [|reflexivity].
    cbn [String.length]. rewrite exec_lazy_dot.
    rewrite (label_split _ _ _ L), consumed_append.
    unfold until_sep.
    generalize (Str.drop 1 s1). intros s2.
    induction s2 as [|c s2 IH]; cbn [first_suffix]; cbv beta;
      rewrite exec_ahead, exec_lit.
    + reflexivity.
    + destruct (Str.starts_with "---" (String c s2)); [reflexivity|].
      rewrite IH. reflexivity.
  - intros s' c' H. rewrite exec_seq, exec_lit, H. reflexivity.
Qed.

Lemma all_take_while p s : Str.all p (Str.take_while p s) = true.
Proof.
  induction s as [|c s IH]; simpl; [reflexivity|].
  destruct (p c) eqn:P; simpl; [now rewrite P | reflexivity].
Qed.

Lemma label_title s t rest : label s = Some (t, rest) -> is_title t = true.
Proof.
  unfold label, is_title.
  destruct (Str.starts_with "Introduction" s).
  { intros H. injection H as <- _. reflexivity. }
  destruct (Str.starts_with "Step " s).
  { cbv zeta. set (digits := Str.take_while Str.isdigit (Str.drop 5 s)).
    destruct (Str.is_nil digits) eqn:N; [discriminate|].
    intros H. injection H as <- _.
    assert (A : Str.all Str.isdigit digits = true) by apply all_take_while.
    clearbody digits. cbn -[Str.isdigit Str.all Str.is_nil].
    now rewrite N, A. }
  destruct (Str.starts_with "Conclusion" s); [|discriminate].
  intros H. injection H as <- _. reflexivity.
Qed.

Lemma starts_with_sep_local b x :
  b <> "" ->
  Str.starts_with "---" (b ++ "--" ++ x) = Str.starts_with "---" (b ++ "--").
Proof.
  destruct b as [|c1 [|c2 [|c3 b]]]; [congruence| | |]; intros _; simpl;
    repeat match goal with
           | |- context [Ascii.eqb ?a ?b] => destruct (Ascii.eqb a b)
           end; reflexivity.
Qed.

Lemma until_sep_sound s rest :
  until_sep s = Some rest ->
  exists body,
    s = body ++ rest /\ Str.starts_with "---" rest = true /\
    sep_free body = true.
Proof.
  unfold until_sep, sep_free.
  induction s as [|c s IH]; cbn [first_suffix].
  - destruct (Str.starts_with "---" "") eqn:E; [discriminate E|discriminate].
  - destruct (Str.starts_with "---" (String c s)) eqn:E.
    + intros H. injection H as <-. exists "". auto.
    + intros H. destruct (IH H) as (body & -> & R & F).
      exists (String c body). split; [reflexivity|]. split; [exact R|].
      apply negb_true_iff. apply negb_true_iff in F.
      change (Str.occurs "---" (String c body ++ "--"))
        with (Str.starts_with "---" (String c body ++ "--")
              || Str.occurs "---" (body ++ "--")).
      rewrite F, orb_false_r.
      assert (X : "--" ++ String "-" (Str.drop 3 rest) = rest)
        by (symmetry; exact (starts_with_split "---" rest R)).
      rewrite <- (starts_with_sep_local (String c body)
                    (String "-" (Str.drop 3 rest))) by discriminate.
      rewrite X. exact E.
Qed.

Lemma until_sep_complete body rest :
  sep_free body = true -> Str.starts_with "---" rest = true ->
  until_sep (body ++ rest) = Some rest.
Proof.
  unfold until_sep, sep_free. intros F R.
  induction body as [|c body IH].
  - destruct rest; cbn [append first_suffix]; now rewrite R.
  - apply negb_true_iff in F.
    change (Str.occurs "---" (String c body ++ "--"))
      with (Str.starts_with "---" (String c body ++ "--")
            || Str.occurs "---" (body ++ "--")) in F.
    apply orb_false_iff in F as [F1 F2].
    assert (X : "--" ++ String "-" (Str.drop 3 rest) = rest)
      by (symmetry; exact (starts_with_split "---" rest R)).
    rewrite <- (starts_with_sep_local (String c body)
                  (String "-" (Str.drop 3 rest))), X in F1 by discriminate.
    cbn [append first_suffix] in *. rewrite F1.
    apply IH. now rewrite F2.
Qed.

Lemma take_while_all p s x :
  Str.all p s = true ->
  match x with String c _ => p c = false | EmptyString => True end ->
  Str.take_while p (s ++ x) = s /\ Str.drop_while p (s ++ x) = x.
Proof.
  intros A X. induction s as [|c s IH]; simpl in *.
  - destruct x as [|d x]; [auto|]. simpl. now rewrite X.
  - apply andb_true_iff in A as [Pc A]. rewrite Pc.
    destruct (IH A) as [-> ->]. auto.
Qed.

Lemma label_complete t x :
  is_title t = true -> label (t ++ String ":" x) = Some (t, String ":" x).
Proof.
  unfold is_title. intros H.
  apply orb_true_iff in H as [H|H]; [apply orb_true_iff in H as [H|H]|].
  - apply String.eqb_eq in H. subst t. reflexivity.
  - apply String.eqb_eq in H. subst t. reflexivity.
  - apply andb_true_iff in H as [H A]. apply andb_true_iff in H as [S N].
    apply negb_true_iff in N.
    rewrite (starts_with_split "Step " t S) at 1 2.
    cbn [String.length]. set (digits := Str.drop 5 t) in *. clearbody digits.
    unfold label. cbn -[Str.isdigit Str.take_while Str.drop_while Str.is_nil].
    destruct (take_while_all Str.isdigit digits (String ":" x) A eq_refl)
      as [-> ->].
    rewrite N. reflexivity.
Qed.

Lemma section_at_sound s sp t rest :
  section_at s = Some (sp, t, rest) ->
  s = sp ++ rest /\ Str.starts_with "---" rest = true /\ is_title t = true /\
  exists w b,
    Str.isspace w = true /\ sep_free b = true /\
    sp = "##" ++ String w (t ++ ":" ++ b).
Proof.
  unfold section_at.
  destruct (Str.starts_with "##" s) eqn:H; [|discriminate].
  apply (starts_with_split "##") in H. cbn [String.length] in H.
  destruct (Str.drop 2 s) as [|w s0]; [discriminate|].
  destruct (Str.isspace w) eqn:W; [|discriminate].
  destruct (label s0) as [[t' s1]|] eqn:L; [|discriminate].
  destruct (Str.starts_with ":" s1) eqn:C; [|discriminate].
  apply (starts_with_split ":") in C. cbn [String.length] in C.
  destruct (until_sep (Str.drop 1 s1)) as [rest'|] eqn:U; [|discriminate].
  intros E. injection E as E1 E2 E3. subst t' rest'.
  destruct (until_sep_sound _ _ U) as (b & B & R & F).
  assert (S : s = ("##" ++ String w (t ++ ":" ++ b)) ++ rest).
  { rewrite H. rewrite (label_split _ _ _ L), C, B.
    cbn [append]. now rewrite !append_assoc. }
  rewrite S in E1 at 1. rewrite consumed_append in E1. subst sp.
  split; [exact S|]. split; [exact R|].
  split; [exact (label_title _ _ _ L)|].
  exists w, b. auto.
Qed.

Lemma section_at_heading w s0 :
  section_at ("##" ++ String w s0)
  = if Str.isspace w then
      match label s0 with
      | Some (t, s1) =>
          if Str.starts_with ":" s1 then
            match until_sep (Str.drop 1 s1) with
            | Some rest => Some (consumed ("##" ++ String w s0) rest, t, rest)
            | None => None
            end
          else None
      | None => None
      end
    else None.
Proof. reflexivity. Qed.

Lemma section_at_complete w t b rest :
  Str.isspace w = true -> is_title t = true -> sep_free b = true ->
  Str.starts_with "---" rest = true ->
  section_at (("##" ++ String w (t ++ ":" ++ b)) ++ rest)
  = Some ("##" ++ String w (t ++ ":" ++ b), t, rest).
Proof.
  intros W T F R.
  assert (E : ("##" ++ String w (t ++ ":" ++ b)) ++ rest
              = "##" ++ String w (t ++ String ":" (b ++ rest)))
    by (cbn [append]; now rewrite !append_assoc).
  rewrite E, section_at_heading, W, (label_complete _ _ T).
  change (Str.starts_with ":" (String ":" (b ++ rest))) with true.
  change (Str.drop 1 (String ":" (b ++ rest))) with (b ++ rest).
  cbv iota. rewrite (until_sep_complete _ _ F R).
  now rewrite <- E, consumed_append.
Qed.

Lemma scan_skip r a : forall b,
  scan r (a ++ b) (String.length a) = scan r b 0.
Proof. induction a as [|c a IH]; intros b; simpl; auto. Qed.

Lemma drop_append a b : Str.drop (String.length a) (a ++ b) = b.
Proof. induction a as [|c a IH]; simpl; auto. Qed.

Lemma scan_miss c s :
  section_at (String c s) = None ->
  scan Outline.section_re (String c s) 0 = scan Outline.section_re s 0.
Proof.
  intros H. cbn [scan]. now rewrite match_at_section, H.
Qed.

Lemma scan_hit s sp t rest :
  section_at s = Some (sp, t, rest) ->
  scan Outline.section_re s 0
  = [(1, sp); (2, t)] :: scan Outline.section_re rest 0.
Proof.
  intros H.
  destruct (section_at_sound _ _ _ _ H) as (S & _ & _ & w & b & _ & _ & P).
  destruct s as [|c s]; [discriminate H|].
  cbn [scan]. rewrite match_at_section, H. f_equal.
  rewrite P in S. cbn [append] in S. injection S as -> ->.
  set (inner := String "#" (String w (t ++ String ":" b))).
  change (String "#" (String w ((t ++ String ":" b) ++ rest)))
    with (inner ++ rest).
  replace (String.length (String "#" (inner ++ rest)) - String.length rest - 1)
    with (String.length inner)
    by (cbn [String.length]; rewrite length_append; lia).
  apply scan_skip.
Qed.

Lemma section_at_needs_hash c s :
  Ascii.eqb c "#" = false -> section_at (String c s) = None.
Proof.
  intros H. unfold section_at. cbn [Str.starts_with].
  rewrite Ascii.eqb_sym in H. now rewrite H.
Qed.

Lemma scan_no_hash a : forall b,
  Str.all (fun c => negb (Ascii.eqb c "#")) a = true ->
  scan Outline.section_re (a ++ b) 0 = scan Outline.section_re b 0.
Proof.
  induction a as [|c a IH]; intros b H; [reflexivity|].
  simpl in H. apply andb_true_iff in H as [Hc Ha].
  apply negb_true_iff in Hc.
  cbn [append]. rewrite scan_miss by now apply section_at_needs_hash.
  now apply IH.
Qed.

Lemma occurs_append p a : forall rest,
  Str.starts_with p rest = true -> Str.occurs p (a ++ rest) = true.
Proof.
  induction a as [|c a IH]; intros rest H.
  - destruct rest; simpl in *; now rewrite H.
  - cbn [append Str.occurs]. rewrite (IH rest H). apply orb_true_r.
Qed.

(** Without a separator nothing is extracted, whatever headings the
    text holds. *)
Lemma scan_no_separator s :
  Str.occurs "---" s = false -> scan Outline.section_re s 0 = [].
Proof.
  induction s as [|c s IH]; intros H; [reflexivity|].
  assert (N : section_at (String c s) = None).
  { destruct (section_at (String c s)) as [[[sp t] rest]|] eqn:E; [|reflexivity].
    destruct (section_at_sound _ _ _ _ E) as (S & R & _).
    rewrite S, (occurs_append "---" sp rest R) in H. discriminate H. }
  rewrite (scan_miss _ _ N). apply IH.
  cbn [Str.occurs] in H. now apply orb_false_iff in H as [_ H].
Qed.

Lemma laid_out_later spans c s : laid_out spans s -> laid_out spans (String c s).
Proof.
  destruct spans as [|sp more]; [trivial|].
  intros (pre & rest & -> & R & L). now exists (String c pre), rest.
Qed.

Lemma section_at_shorter s sp t rest :
  section_at s = Some (sp, t, rest) -> String.length rest < String.length s.
Proof.
  intros H.
  destruct (section_at_sound _ _ _ _ H) as (S & _ & _ & w & b & _ & _ & P).
  rewrite S, P, length_append. cbn [append String.length]. lia.
Qed.

Lemma scan_sound n : forall s, String.length s <= n ->
  let found := List.map (fun caps => (group 1 caps, group 2 caps))
                 (scan Outline.section_re s 0) in
  laid_out (List.map fst found) s /\ Forall shaped found.
Proof.
  induction n as [|n IH]; intros s L; cbv zeta.
  - destruct s; [simpl; auto | simpl in L; lia].
  - destruct s as [|c s]; [simpl; auto|].
    destruct (section_at (String c s)) as [[[sp t] rest]|] eqn:E.
    + rewrite (scan_hit _ _ _ _ E).
      pose proof (section_at_shorter _ _ _ _ E) as Sh.
      destruct (section_at_sound _ _ _ _ E) as (S & R & T & w & b & W & F & P).
      destruct (IH rest) as [Lo Fo]; [simpl in *; lia|].
      cbn [List.map group Nat.eqb fst]. split.
      * exists "", rest. auto.
      * constructor; [|exact Fo]. split; [exact T|]. now exists w, b.
    + rewrite (scan_miss _ _ E).
      destruct (IH s) as [Lo Fo]; [simpl in L; lia|].
      split; [|exact Fo]. now apply laid_out_later.
Qed.

End OutlineFacts.

(* ================================================================== *)
(** * Section extraction *)

(** X1.  Whatever the outline, the spans returned lie in it in the order
    returned, each followed at once by a separator, and each is a
    heading with a title of the three kinds and a body that holds no
    earlier separator. *)
Theorem sections_sound (content_outline : string) :
  Outline.laid_out (List.map fst (Outline.sections content_outline))
    content_outline /\
  Forall Outline.shaped (Outline.sections content_outline).
Proof.
  apply (OutlineFacts.scan_sound (String.length content_outline)).
  apply Nat.le_refl.
Qed.

(** X2.  An outline made of [k] well-formed blocks, each closed by a
    separator, followed by text without a separator, yields the [k]
    blocks in their order.  The text after the last separator yields
    nothing, whether it holds a heading or not. *)
Theorem sections_of_delimited (blocks : list Outline.block) (tail : string) :
  List.forallb Outline.well_formed blocks = true ->
  Str.occurs "---" tail = false ->
  Outline.sections (Outline.render blocks tail)
  = List.map (fun b => (Outline.span b, Outline.title b)) blocks.
Proof.
  intros W T. unfold Outline.sections, Re.findall.
  induction blocks as [|b blocks IH]; cbn [Outline.render List.map].
  - now rewrite (OutlineFacts.scan_no_separator _ T).
  - cbn [List.forallb] in W. apply andb_true_iff in W as [Wb W].
    unfold Outline.well_formed in Wb.
    apply andb_true_iff in Wb as [Wb F]. apply andb_true_iff in Wb as [Wb Ti].
    apply andb_true_iff in Wb as [L G].
    rewrite (OutlineFacts.scan_no_hash _ _ L).
    unfold Outline.span.
    rewrite (OutlineFacts.scan_hit _ _ _ _
               (OutlineFacts.section_at_complete (Outline.gap b)
                  (Outline.title b) (Outline.body b)
                  ("---" ++ Outline.render blocks tail) G Ti F eq_refl)).
    cbn [List.map Re.group Nat.eqb]. f_equal.
    rewrite (OutlineFacts.scan_no_hash "---" _ eq_refl).
    now apply IH.
Qed.

Lemma sections_of_delimited_witness :
  Outline.sections
    (Outline.render
       [ {| Outline.lead := ""; Outline.gap := " ";
            Outline.title := "Introduction"; Outline.body := " why" |};
         {| Outline.lead := nl; Outline.gap := " ";
            Outline.title := "Step 12"; Outline.body := " knead" ++ nl |} ]
       (nl ++ "## Conclusion: enjoy"))
  = [ ("## Introduction: why", "Introduction");
      ("## Step 12: knead" ++ nl, "Step 12") ].
Proof.
  apply (sections_of_delimited
           [ {| Outline.lead := ""; Outline.gap := " ";
                Outline.title := "Introduction"; Outline.body := " why" |};
             {| Outline.lead := nl; Outline.gap := " ";
                Outline.title := "Step 12"; Outline.body := " knead" ++ nl |} ]
           (nl ++ "## Conclusion: enjoy")).
  - reflexivity.
  - reflexivity.
Defined.

(** C1.  On an outline with a separator between one section and the
    next, as line 43 asks for it, the last section has no separator
    after it and is not returned: of the three sections only the first
    two come back. *)
Theorem last_section_dropped :
  Outline.sections Scenario.separated_outline
  = [ ("## Introduction: why sourdough" ++ nl, "Introduction");
      ("## Step 1: the starter" ++ nl, "Step 1") ] /\
  Outline.section_titles Scenario.separated_outline
  = ["Introduction"; "Step 1"].
Proof. split; reflexivity. Qed.

(* ================================================================== *)
(** * Facts about runs *)

Import Py.

(** Running an interaction against an arbitrary environment: unfold the
    monad, then follow the program, splitting on the answer of each call
    as the program reaches it. *)
Ltac unfold_run :=
  unfold Run.session_result, Bot.research_section, Bot.session,
    Bot.generate_outline, bind, call, print, sleep, try_except,
    try_finally, try_except_timeout, set_page, get_page, ret, raise,
    append_file, events, final, result in *.

Ltac crunch :=
  cbn -[Bot.delimiter Bot.error_block Bot.copy_failed Bot.research_prompt
        Bot.no_response_message Bot.outline_prompt String.eqb
        Bot.response_minutes substring] in *.

Ltac run_step :=
  match goal with
  | |- context [match ?x with Returns _ => _ | Raises _ => _ end] =>
      destruct x eqn:?
  | |- context [match ?x with TimeoutError _ => _ | OtherError _ => _ end] =>
      destruct x eqn:?
  | |- context [match ?x with
                | Written => _ | OpenFails _ => _ | WriteFails _ _ => _
                end] => destruct x eqn:?
  | |- context [if ?x then _ else _] => destruct x eqn:?
  | H : context [match ?x with Returns _ => _ | Raises _ => _ end] |- _ =>
      destruct x eqn:?
  | H : context [match ?x with TimeoutError _ => _ | OtherError _ => _ end]
    |- _ => destruct x eqn:?
  | H : context [if ?x then _ else _] |- _ => destruct x eqn:?
  end; crunch.

Ltac run_all env := unfold_run; destruct env; crunch; repeat run_step.

(** The same, with the answer [E] of one call known in advance. *)
Ltac run_from env E :=
  unfold_run; destruct env; crunch; rewrite E in *; crunch; repeat run_step.

Lemma fs_read_append_same path data f :
  fs_read path (fs_append path data f)
  = Some (match fs_read path f with Some c => c | None => "" end ++ data).
Proof.
  induction f as [|[p c] f IH]; simpl.
  - now rewrite String.eqb_refl.
  - destruct (String.eqb p path) eqn:E; simpl; rewrite E; [reflexivity|exact IH].
Qed.

Lemma fs_read_append_other path other data f :
  other <> path -> fs_read other (fs_append path data f) = fs_read other f.
Proof.
  intros NE. induction f as [|[p c] f IH]; simpl.
  - apply String.eqb_neq in NE. rewrite String.eqb_sym in NE. now rewrite NE.
  - destruct (String.eqb p path) eqn:E; simpl.
    + apply String.eqb_eq in E. subst p.
      apply String.eqb_neq in NE. rewrite String.eqb_sym in NE. now rewrite NE.
    + now rewrite IH.
Qed.

Lemma count_app p (a b : list event) :
  Run.count p (a ++ b) = Run.count p a + Run.count p b.
Proof. unfold Run.count. now rewrite List.filter_app, List.length_app. Qed.

Lemma appended_app path (a b : list event) :
  Run.appended path (a ++ b)
  = (Run.appended path a ++ Run.appended path b)%list.
Proof.
  induction a as [|ev a IH]; simpl; [reflexivity|].
  destruct ev; auto. destruct (String.eqb path0 path); simpl; now rewrite IH.
Qed.

(** A section's interaction leaves the files alone, binds [page] once a
    page was opened, and neither its result nor its events depend on the
    world it starts from. *)
Lemma session_frame_bound env outline n i title w :
  Bot.session env outline n i title w
  = (Run.session_result env outline n i title,
     {| files := files w;
        page := Protocol.returns (on_new_page env) || page w |},
     events (Bot.session env outline n i title Run.blank)).
Proof.
  destruct w as [f p]. unfold Protocol.returns.
  destruct (on_new_page env) eqn:NP;
    unfold_run; destruct env; crunch; crunch;
    simpl in NP; rewrite NP; crunch; repeat run_step; reflexivity.
Qed.

Lemma session_frame env outline n i title :
  exists bound : bool, forall w,
    Bot.session env outline n i title w
    = (Run.session_result env outline n i title,
       {| files := files w; page := bound || page w |},
       events (Bot.session env outline n i title Run.blank)).
Proof.
  exists (Protocol.returns (on_new_page env)). apply session_frame_bound.
Qed.

Lemma session_no_append env outline n i title w :
  List.filter Run.is_append (events (Bot.session env outline n i title w)) = [].
Proof.
  run_all env; reflexivity.
Qed.

Lemma filter_append_nil path evs :
  List.filter Run.is_append evs = [] -> Run.appended path evs = [].
Proof.
  induction evs as [|ev evs IH]; simpl; [reflexivity|].
  destruct ev; simpl; auto; discriminate.
Qed.

(** One pass of the loop in closed form: how it ends, the data it hands
    to the file, what it leaves in the file, and that it touches no
    other file. *)
Lemma research_section_run env outline path n i title w :
  let r := Bot.research_section env outline path n i title w in
  result r = Run.pass_result env outline n i title /\
  Run.appended path (events r) = Run.attempts env outline n i title /\
  Run.count Run.is_append (events r)
  = List.length (Run.attempts env outline n i title) /\
  Run.content path (final r)
  = Run.content path w ++ Run.pass_written env outline n i title /\
  forall other, other <> path ->
    fs_read other (files (final r)) = fs_read other (files w).
Proof.
  destruct (session_frame env outline n i title) as [bound F].
  pose proof (session_no_append env outline n i title Run.blank) as NA.
  unfold Run.pass_result, Run.attempts, Run.pass_written, Run.handled.
  unfold Bot.research_section, bind, try_finally, try_except, set_page,
    get_page, append_file, print, call, ret, events, final, result.
  cbn -[Bot.session Run.session_result Bot.delimiter Bot.error_block
        Bot.copy_failed String.eqb Run.count Run.appended substring].
  rewrite F.
  set (evs := events (Bot.session env outline n i title Run.blank)) in *.
  assert (C : Run.count Run.is_append evs = 0)
    by (unfold Run.count; now rewrite NA).
  unfold Run.content.
  destruct (Run.session_result env outline n i title) as [text|e];
    destruct (on_write_record env), (on_write_error env), bound, (page w);
    cbn -[Bot.delimiter Bot.error_block Bot.copy_failed String.eqb
          Run.count Run.appended substring];
    rewrite ?append_nil_r, ?count_app, ?appended_app,
      ?(filter_append_nil path evs NA), ?C;
    cbn -[Bot.delimiter Bot.error_block Bot.copy_failed String.eqb substring];
    rewrite ?String.eqb_refl, ?fs_read_append_same, ?append_nil_r;
    (split; [reflexivity|]); (split; [reflexivity|]);
    (split; [reflexivity|]);
    (split;
     [ destruct (fs_read path (files w));
       now rewrite ?append_assoc, ?append_nil_r
     | intros other NE; now rewrite ?fs_read_append_other by exact NE ]).
Qed.

Lemma is_unchecked_true v : Bot.is_unchecked v = true <-> v = Some "unchecked".
Proof.
  destruct v as [v|]; simpl; [|split; discriminate].
  rewrite String.eqb_eq. split; congruence.
Qed.

(** The loop in closed form, whether it runs to its end or is left by an
    exception. *)
Lemma research_loop_run envs outline path n titles : forall i w,
  let r := Run.research_loop envs outline path n i titles w in
  result r = Run.loop_result envs outline n i titles /\
  Run.appended path (events r) = Run.loop_attempts envs outline n i titles /\
  Run.count Run.is_append (events r)
  = List.length (Run.loop_attempts envs outline n i titles) /\
  Run.content path (final r)
  = Run.content path w ++ Run.loop_written envs outline n i titles /\
  forall other, other <> path ->
    fs_read other (files (final r)) = fs_read other (files w).
Proof.
  induction titles as [|t titles IH]; intros i w.
  - cbn. rewrite append_nil_r. auto.
  - unfold Run.research_loop in *.
    cbn [for_enumerate Run.loop_result Run.loop_attempts Run.loop_written].
    unfold bind.
    pose proof (research_section_run (envs i) outline path n i t w) as S.
    cbv zeta in S.
    destruct (Bot.research_section (envs i) outline path n i t w)
      as [[r1 w1] evs1].
    unfold result, final, events in S. simpl in S.
    destruct S as (R1 & A1 & C1 & T1 & O1). rewrite <- R1.
    destruct r1 as [[]|e].
    + specialize (IH (S i) w1). cbv zeta in IH.
      destruct (for_enumerate (S i) titles _ w1) as [[r2 w2] evs2].
      unfold result, final, events in *. simpl in *.
      destruct IH as (R2 & A2 & C2 & T2 & O2).
      split; [exact R2|]. split; [now rewrite appended_app, A1, A2|].
      split; [now rewrite count_app, C1, C2, List.length_app|].
      split; [now rewrite T2, T1, append_assoc|].
      intros other NE. now rewrite (O2 other NE), (O1 other NE).
    + unfold result, final, events. simpl.
      rewrite !List.app_nil_r, append_nil_r. auto.
Qed.


Lemma concat_cons (r : string) rs :
  String.concat "" (r :: rs) = r ++ String.concat "" rs.
Proof. destruct rs; simpl; [now rewrite append_nil_r | reflexivity]. Qed.

(** A pass whose append succeeds hands one record to the file, leaves
    it there and returns. *)
Lemma pass_when_append_succeeds env outline n i title :
  match Run.session_result env outline n i title with
  | Returns _ => on_write_record env = Written
  | Raises _ => on_write_error env = Written
  end ->
  Run.pass_result env outline n i title = Returns tt /\
  Run.attempts env outline n i title
  = [Run.record_of title (Run.session_result env outline n i title)] /\
  Run.pass_written env outline n i title
  = Run.record_of title (Run.session_result env outline n i title).
Proof.
  unfold Run.pass_result, Run.attempts, Run.pass_written, Run.handled.
  destruct (Run.session_result env outline n i title) as [text|e];
    intros ->; cbn [failure left_in_file List.app];
    now rewrite ?append_nil_r.
Qed.

Lemma loop_when_appends_succeed envs outline n titles : forall i,
  Run.appends_succeed envs outline n i titles ->
  Run.loop_result envs outline n i titles = Returns tt /\
  Run.loop_attempts envs outline n i titles
  = Run.records envs outline n i titles /\
  Run.loop_written envs outline n i titles
  = String.concat "" (Run.records envs outline n i titles) /\
  Run.passes_run envs outline n i titles = List.length titles.
Proof.
  induction titles as [|t titles IH]; intros i H.
  - cbn. auto.
  - destruct H as [H1 H2].
    destruct (pass_when_append_succeeds (envs i) outline n i t H1)
      as (P & A & W).
    destruct (IH (S i) H2) as (R & A' & W' & N).
    cbn [Run.loop_result Run.loop_attempts Run.loop_written Run.passes_run
         Run.records List.length].
    rewrite P, A, W, R, A', W', N, concat_cons. auto.
Qed.

(** [research_each_step] is its three opening prints followed by the
    loop, or by the "no sections" print when nothing was extracted. *)
Lemma research_each_step_unfold envs outline path w :
  let titles := Outline.section_titles outline in
  let loop := Run.research_loop envs outline path (List.length titles) 0
                titles w in
  Bot.research_each_step envs outline path w
  = match titles with
    | [] => (Returns tt, w,
             [EPrint Banner; EPrint ResearchStart; EPrint NoSections])
    | _ :: _ =>
        (result loop, final loop,
         ([EPrint Banner; EPrint ResearchStart;
           EPrint (Found (List.length titles) titles)] ++ events loop)%list)
    end.
Proof.
  unfold Bot.research_each_step, Outline.section_titles, Run.research_loop.
  destruct (Outline.sections outline) as [|s ss]; [reflexivity|].
  cbn [List.map]. unfold bind, print, call.
  match goal with
  | |- context [for_enumerate 0 ?l ?b w] =>
      destruct (for_enumerate 0 l b w) as [[r w'] e]
  end.
  destruct r; reflexivity.
Qed.

(** The whole research phase in closed form. *)
Lemma research_each_step_summary envs outline path w :
  let titles := Outline.section_titles outline in
  let n := List.length titles in
  let run := Bot.research_each_step envs outline path w in
  result run = Run.loop_result envs outline n 0 titles /\
  Run.appended path (events run) = Run.loop_attempts envs outline n 0 titles /\
  Run.count Run.is_append (events run)
  = List.length (Run.loop_attempts envs outline n 0 titles) /\
  Run.content path (final run)
  = Run.content path w ++ Run.loop_written envs outline n 0 titles /\
  forall other, other <> path ->
    fs_read other (files (final run)) = fs_read other (files w).
Proof.
  cbv zeta. rewrite research_each_step_unfold. cbv zeta.
  set (titles := Outline.section_titles outline).
  destruct (research_loop_run envs outline path (List.length titles)
              titles 0 w) as (R & A & C & T & O).
  destruct titles as [|t ts] eqn:E.
  - cbn. rewrite append_nil_r. auto.
  - rewrite <- E in *. unfold result, final, events in *. cbn [fst snd].
    rewrite appended_app, count_app, A, C. auto.
Qed.

(** The records as the file shows them. *)
Lemma delimiter_append title body :
  Bot.delimiter title ++ body
  = nl ++ nl ++ "====================" ++ " " ++ Str.upper title ++ " "
    ++ "====================" ++ nl ++ nl ++ body.
Proof. unfold Bot.delimiter. now rewrite !append_assoc. Qed.


Lemma record_text title text :
  Run.record_of title (Returns text)
  = nl ++ nl ++ "====================" ++ " " ++ Str.upper title ++ " "
    ++ "====================" ++ nl ++ nl
    ++ (if Str.is_nil text
        then "--- ERROR: FAILED TO COPY CONTENT FOR " ++ title ++ " ---" ++ nl
        else text).
Proof.
  cbn [Run.record_of]. now rewrite delimiter_append.
Qed.

(* ================================================================== *)
(** * The research loop *)

(** C4.  When line 89 recognizes no section, [research_each_step] prints
    its two opening lines and the "no sections found" line and returns:
    it opens no page, talks to no page, appends nothing, leaves every
    file as it was and raises nothing. *)
Theorem no_sections_stops_research envs outline path w :
  Outline.sections outline = [] ->
  let r := Bot.research_each_step envs outline path w in
  result r = Returns tt /\
  events r = [EPrint Banner; EPrint ResearchStart; EPrint NoSections] /\
  Run.count Run.is_new_page (events r) = 0 /\
  Run.count Run.is_interaction (events r) = 0 /\
  Run.count Run.is_append (events r) = 0 /\
  final r = w.
Proof.
  intros E. cbv zeta. rewrite research_each_step_unfold.
  unfold Outline.section_titles. rewrite E. cbn. auto 10.
Qed.

Lemma no_sections_stops_research_witness :
  let r := Bot.research_each_step (fun _ => Run.smooth None "text")
             "An outline without any heading." "out.txt" Run.blank in
  result r = Returns tt /\
  events r = [EPrint Banner; EPrint ResearchStart; EPrint NoSections] /\
  Run.count Run.is_new_page (events r) = 0 /\
  Run.count Run.is_interaction (events r) = 0 /\
  Run.count Run.is_append (events r) = 0 /\
  final r = Run.blank.
Proof.
  apply (no_sections_stops_research (fun _ => Run.smooth None "text")
           "An outline without any heading." "out.txt" Run.blank).
  reflexivity.
Defined.






(** C5, as stated, fails: the record of a section whose interaction
    raised has no delimiter line.  With a page that cannot be reached the
    record appended for "Step 1" starts with the error line. *)
Lemma failed_section_record_not_delimited :
  ~ (forall env outline path n i title w rec,
       In rec (Run.appended path
                 (events (Bot.research_section env outline path n i title w))) ->
       Run.delimited title rec).
Proof.
  intros H.
  specialize (H Scenario.unreachable "" "out.txt" 1 0 "Step 1" Run.blank
                (Bot.error_block "Step 1"
                   (OtherError "net::ERR_INTERNET_DISCONNECTED"))).
  destruct H as [body B].
  - left. reflexivity.
  - vm_compute in B. discriminate B.
Qed.

(** C5, amended.  Whatever a pass of the loop hands to the output file
    has one of two layouts.  The record of an interaction that reached
    the clipboard read is two newlines, the line of twenty [=], the
    title in capitals and twenty [=], an empty line, then the clipboard
    text as it is, or, for an empty clipboard, the copy-failure line
    naming the title.  The block written for an exception is two
    newlines, the line [--- ERROR DURING RESEARCH FOR: <title> ---], the
    line [Details: <error>] and an empty line, with no delimiter line.
    A pass whose interaction returned hands over the record first; a
    pass whose interaction raised hands over the error block for that
    exception and nothing else. *)
Theorem record_layout env outline path n i title w :
  let r := Bot.research_section env outline path n i title w in
  (forall rec, In rec (Run.appended path (events r)) ->
     (exists text,
        Run.session_result env outline n i title = Returns text /\
        Run.delimited title rec /\
        rec = nl ++ nl ++ Str.repeat "=" 20 ++ " " ++ Str.upper title ++ " "
              ++ Str.repeat "=" 20 ++ nl ++ nl
              ++ (if Str.is_nil text
                  then "--- ERROR: FAILED TO COPY CONTENT FOR " ++ title
                       ++ " ---" ++ nl
                  else text)) \/
     (exists e,
        rec = nl ++ nl ++ "--- ERROR DURING RESEARCH FOR: " ++ title ++ " ---"
              ++ nl ++ "Details: " ++ str_of_exn e ++ nl ++ nl /\
        Str.starts_with (nl ++ nl ++ "=") rec = false)) /\
  match Run.session_result env outline n i title with
  | Returns text =>
      List.hd_error (Run.appended path (events r))
      = Some (nl ++ nl ++ Str.repeat "=" 20 ++ " " ++ Str.upper title ++ " "
              ++ Str.repeat "=" 20 ++ nl ++ nl
              ++ (if Str.is_nil text
                  then "--- ERROR: FAILED TO COPY CONTENT FOR " ++ title
                       ++ " ---" ++ nl
                  else text))
  | Raises e =>
      Run.appended path (events r)
      = [nl ++ nl ++ "--- ERROR DURING RESEARCH FOR: " ++ title ++ " ---"
         ++ nl ++ "Details: " ++ str_of_exn e ++ nl ++ nl]
  end.
Proof.
  cbv zeta.
  destruct (research_section_run env outline path n i title w)
    as (_ & A & _).
  rewrite A. unfold Run.attempts, Run.handled.
  destruct (Run.session_result env outline n i title) as [text|e].
  - split; [|cbn [List.app List.hd_error]; now rewrite record_text].
    intros rec [<-|H].
    + left. exists text. split; [reflexivity|]. rewrite record_text.
      split; [eexists|]; reflexivity.
    + right. destruct (failure (on_write_record env)) as [e|];
        [|destruct H].
      destruct H as [<-|[]]. exists e. split; reflexivity.
  - split; [|reflexivity].
    intros rec [<-|[]]. right. exists e. split; reflexivity.
Qed.





(* ================================================================== *)
(** * The Web Search toggle *)

(** The toggle in [generate_outline]: clicked at most once, and only
    after the attribute was read as "unchecked"; for any other value the
    function announces that the capability was already enabled and goes
    on to the click on the page body. *)
Lemma outline_toggle env topic w :
  let g := events (Bot.generate_outline env topic w) in
  Run.count Run.is_get_state g <= 1 /\
  (forall e, on_get_state env = Raises e -> Run.count Run.is_toggle g = 0) /\
  (forall v, on_get_state env = Returns v ->
     Run.count Run.is_toggle g
     = (if Bot.is_unchecked v then Run.count Run.is_get_state g else 0) /\
     (Bot.is_unchecked v = false -> In EGetState g ->
      List.firstn 2 (Run.after Run.is_get_state g)
      = [EPrint SearchAlreadyEnabled; EBodyClick])).
Proof.
  cbv zeta. split; [run_all env; auto|].
  split; [intros e E | intros v E; split; [|intros U H]];
    run_from env E; try reflexivity; try congruence;
    intuition discriminate.
Qed.

(** The same for a section's interaction, which prints nothing there. *)
Lemma session_toggle env outline n i title w :
  let s := events (Bot.session env outline n i title w) in
  Run.count Run.is_get_state s <= 1 /\
  (forall e, on_get_state env = Raises e -> Run.count Run.is_toggle s = 0) /\
  (forall v, on_get_state env = Returns v ->
     Run.count Run.is_toggle s
     = (if Bot.is_unchecked v then Run.count Run.is_get_state s else 0) /\
     (Bot.is_unchecked v = false -> In EGetState s ->
      List.firstn 1 (Run.after Run.is_get_state s) = [EBodyClick])).
Proof.
  cbv zeta. split; [run_all env; auto|].
  split; [intros e E | intros v E; split; [|intros U H]];
    run_from env E; try reflexivity; try congruence;
    intuition discriminate.
Qed.




(** C9.  In both interaction functions a click on the toggle happens only
    when the attribute was read and equals "unchecked".  For any other
    value read, the absent attribute included, the toggle is not clicked
    and the function goes on as with an enabled capability: the next
    action on the page is the click on its body, announced in
    [generate_outline] as "already enabled". *)
Theorem toggle_only_when_unchecked env topic outline n i title w :
  let g := events (Bot.generate_outline env topic w) in
  let s := events (Bot.session env outline n i title w) in
  (1 <= Run.count Run.is_toggle g ->
   on_get_state env = Returns (Some "unchecked")) /\
  (1 <= Run.count Run.is_toggle s ->
   on_get_state env = Returns (Some "unchecked")) /\
  (forall v, on_get_state env = Returns v -> v <> Some "unchecked" ->
     Run.count Run.is_toggle g = 0 /\
     Run.count Run.is_toggle s = 0 /\
     (In EGetState g ->
      List.firstn 2 (Run.after Run.is_get_state g)
      = [EPrint SearchAlreadyEnabled; EBodyClick]) /\
     (In EGetState s ->
      List.firstn 1 (Run.after Run.is_get_state s) = [EBodyClick])).
Proof.
  cbv zeta.
  destruct (outline_toggle env topic w) as (G1 & Ge & G).
  destruct (session_toggle env outline n i title w) as (S1 & Se & S).
  assert (K : forall evs,
             (forall e, on_get_state env = Raises e ->
                Run.count Run.is_toggle evs = 0) ->
             (forall v, on_get_state env = Returns v ->
                Run.count Run.is_toggle evs
                = (if Bot.is_unchecked v
                   then Run.count Run.is_get_state evs else 0)) ->
             1 <= Run.count Run.is_toggle evs ->
             on_get_state env = Returns (Some "unchecked")).
  { intros evs He Hv L. destruct (on_get_state env) as [v|e].
    - rewrite (Hv v eq_refl) in L.
      destruct (Bot.is_unchecked v) eqn:U; [|lia].
      apply is_unchecked_true in U. now subst.
    - rewrite (He e eq_refl) in L. lia. }
  split; [|split].
  - apply K; [exact Ge | intros v E; apply (G v E)].
  - apply K; [exact Se | intros v E; apply (S v E)].
  - intros v E NU.
    assert (U : Bot.is_unchecked v = false).
    { destruct (Bot.is_unchecked v) eqn:U; [|reflexivity].
      apply is_unchecked_true in U. contradiction. }
    destruct (G v E) as [Gc Gn]. destruct (S v E) as [Sc Sn].
    rewrite Gc, Sc, U. auto.
Qed.

Lemma toggle_only_when_unchecked_witness :
  Run.count Run.is_toggle
    (events (Bot.session (Run.smooth None "text") "outline" 4 0
               "Introduction" Run.blank)) = 0 /\
  List.firstn 1
    (Run.after Run.is_get_state
       (events (Bot.session (Run.smooth (Some "indeterminate") "text")
                  "outline" 4 0 "Introduction" Run.blank)))
  = [EBodyClick].
Proof.
  split.
  - apply (proj2 (proj2 (toggle_only_when_unchecked (Run.smooth None "text")
             "Sourdough Bread" "outline" 4 0 "Introduction" Run.blank))
             None eq_refl).
    discriminate.
  - apply (proj2 (proj2 (toggle_only_when_unchecked
             (Run.smooth (Some "indeterminate") "text")
             "Sourdough Bread" "outline" 4 0 "Introduction" Run.blank))
             (Some "indeterminate") eq_refl).
    + discriminate.
    + simpl. tauto.
Defined.

(* ================================================================== *)
(** * The two-tier click on the copy button *)




(** A pass whose interaction raised hands the error block for that
    exception to the file, and nothing else. *)
Lemma attempts_of_failure env outline n i title e :
  Run.session_result env outline n i title = Raises e ->
  Run.attempts env outline n i title
  = [nl ++ nl ++ "--- ERROR DURING RESEARCH FOR: " ++ title ++ " ---" ++ nl
     ++ "Details: " ++ str_of_exn e ++ nl ++ nl].
Proof.
  intros E. unfold Run.attempts, Run.handled. rewrite E. reflexivity.
Qed.




(* ================================================================== *)
(** * Closed forms and order of the interactions *)

(** What [generate_outline] returns, and that it leaves the world as it
    found it. *)
Lemma outline_closed_form env topic w :
  Bot.generate_outline env topic w
  = (Returns (match Protocol.first_failure env (fun e => e) with
              | Some _ => None
              | None =>
                  match on_paste env with
                  | Returns text => if Str.is_nil text then None else Some text
                  | Raises _ => None
                  end
              end),
     w, events (Bot.generate_outline env topic w)).
Proof.
  destruct w as [f p].
  unfold Protocol.first_failure, Protocol.failure_after_toggle.
  run_all env; reflexivity.
Qed.

Lemma session_closed_form env outline n i title w :
  result (Bot.session env outline n i title w)
  = match on_new_page env with
    | Raises e => Raises e
    | Returns _ =>
        match Protocol.first_failure env (Protocol.response_timeout title) with
        | Some e => Raises e
        | None => on_paste env
        end
    end.
Proof.
  unfold Protocol.first_failure, Protocol.failure_after_toggle,
    Protocol.response_timeout.
  run_all env; reflexivity.
Qed.

Ltac pick_script :=
  first [ exists true, true; eexists; reflexivity
        | exists true, false; eexists; reflexivity
        | exists false, true; eexists; reflexivity
        | exists false, false; eexists; reflexivity ].

Ltac pick_whole_script :=
  first [ exists true, true; reflexivity
        | exists true, false; reflexivity
        | exists false, true; reflexivity
        | exists false, false; reflexivity ].

(** X10.  The calls [generate_outline] makes on the page and the clipboard
    are an initial part of the script, in its order: it stops at the
    first failure and never skips ahead.  When it returns a text it has
    made them all. *)
Theorem outline_follows_script env topic w :
  let run := Bot.generate_outline env topic w in
  let calls := List.filter Run.is_interaction (events run) in
  (exists toggled fell_back rest,
     Protocol.script toggled fell_back (Bot.outline_prompt topic)
     = (calls ++ rest)%list) /\
  (forall text, result run = Returns (Some text) ->
     exists toggled fell_back,
       calls = Protocol.script toggled fell_back (Bot.outline_prompt topic)).
Proof.
  cbv zeta. destruct w as [f p]. unfold Protocol.script.
  run_all env;
    (split; [pick_script | intros text H; try discriminate H; pick_whole_script]).
Qed.

(** X11.  The same for a section's interaction, which first asks for a page
    and types the research prompt of line 115. *)
Theorem session_follows_script env outline n i title w :
  let run := Bot.session env outline n i title w in
  let calls := List.filter Run.is_interaction (events run) in
  (exists toggled fell_back rest,
     ENewPage :: Protocol.script toggled fell_back
                   (Bot.research_prompt title outline)
     = (calls ++ rest)%list) /\
  (forall text, result run = Returns text ->
     exists toggled fell_back,
       calls = ENewPage :: Protocol.script toggled fell_back
                             (Bot.research_prompt title outline)).
Proof.
  cbv zeta. destruct w as [f p]. unfold Protocol.script.
  run_all env;
    (split; [pick_script | intros text H; try discriminate H; pick_whole_script]).
Qed.

(** A section's interaction asks for a page once and closes none; when
    the page cannot be opened, asking for it is all the interaction
    does. *)
Lemma session_pages env outline n i title w :
  let s := events (Bot.session env outline n i title w) in
  Run.count Run.is_new_page s = 1 /\
  Run.count Protocol.is_close s = 0 /\
  (Protocol.returns (on_new_page env) = false ->
   Run.count Run.is_interaction s = 1).
Proof.
  cbv zeta.
  run_all env; (split; [reflexivity|]; split; [reflexivity|]);
    intros H; try discriminate H; reflexivity.
Qed.

(** One pass of the loop asks for a page once; it closes the page, as its
    last action on it and after what it appends, exactly when the page
    could be opened, whether the pass returns or raises. *)
Lemma research_section_pages env outline path n i title w :
  let evs := events (Bot.research_section env outline path n i title w) in
  Run.count Run.is_new_page evs = 1 /\
  Run.count Protocol.is_close evs
  = (if Protocol.returns (on_new_page env) then 1 else 0) /\
  (Protocol.returns (on_new_page env) = true ->
   exists before,
     evs = (before ++ [EClosePage; EPrint (PageClosed title)])%list /\
     1 <= Run.count Run.is_append before /\
     Run.count Protocol.is_close before = 0) /\
  (Protocol.returns (on_new_page env) = false ->
   Run.count Run.is_interaction evs = 1).
Proof.
  cbv zeta.
  pose proof (session_frame_bound env outline n i title) as F.
  destruct (session_pages env outline n i title Run.blank) as (SN & SC & SI).
  unfold Bot.research_section, bind, try_finally, try_except, set_page,
    get_page, append_file, print, call, ret, events, final, result.
  cbn -[Bot.session Run.session_result Bot.delimiter Bot.error_block
        Bot.copy_failed String.eqb Run.count Run.appended substring
        Protocol.returns].
  rewrite F.
  set (evs := events (Bot.session env outline n i title Run.blank)) in *.
  destruct (Run.session_result env outline n i title) as [text|e],
    (on_write_record env), (on_write_error env),
    (Protocol.returns (on_new_page env));
    cbn -[Bot.delimiter Bot.error_block Bot.copy_failed String.eqb
          Run.count Run.appended substring];
    rewrite <- ?List.app_assoc; cbn [List.app];
    rewrite !count_app, ?SN, ?SC; try rewrite (SI eq_refl);
    (split; [reflexivity|]); (split; [reflexivity|]);
    (split; [intros H; try discriminate H
            | intros H; try discriminate H; reflexivity]).
  all: match goal with
       | |- exists before, (?s ++ ?l)%list = _ /\ _ =>
           exists (s ++ List.removelast (List.removelast l))%list
       end; cbn [List.removelast];
       (split; [now rewrite <- List.app_assoc|]);
       rewrite !count_app, SC; unfold Run.count; cbn; split; [lia|reflexivity].
Qed.

Lemma session_result_any_world env outline n i title w :
  result (Bot.session env outline n i title w)
  = Run.session_result env outline n i title.
Proof.
  destruct (session_frame env outline n i title) as [bound F].
  now rewrite (F w).
Qed.

(** The wait for the response, when it is reached and fails. *)
Lemma session_response_wait env outline n i title w :
  let run := Bot.session env outline n i title w in
  In EWaitResponse (events run) ->
  forall e, on_wait_response env = Raises e ->
    result run = Raises (Protocol.response_timeout title e) /\
    Run.count Run.is_click (events run) = 0 /\
    Run.count Run.is_paste (events run) = 0.
Proof.
  cbv zeta. intros H e E. unfold Protocol.response_timeout.
  unfold_run; destruct env; crunch; rewrite E in *; crunch;
    repeat run_step; try (repeat split; reflexivity);
    intuition discriminate.
Qed.

Lemma appends_elsewhere path other evs :
  other <> path ->
  List.length (Run.appended path evs) + List.length (Run.appended other evs)
  <= Run.count Run.is_append evs.
Proof.
  intros NE. unfold Run.count.
  induction evs as [|ev evs IH]; simpl; [lia|].
  destruct ev; simpl; try exact IH.
  destruct (String.eqb path0 path) eqn:P, (String.eqb path0 other) eqn:O;
    simpl; try lia.
  apply String.eqb_eq in P, O. congruence.
Qed.

Lemma passes_run_bound envs outline n titles : forall i,
  Run.passes_run envs outline n i titles <= List.length titles /\
  (Run.loop_result envs outline n i titles = Returns tt ->
   Run.passes_run envs outline n i titles = List.length titles).
Proof.
  induction titles as [|t titles IH]; intros i;
    cbn [Run.passes_run Run.loop_result List.length]; [auto|].
  destruct (IH (S i)) as [L E].
  destruct (Run.pass_result (envs i) outline n i t).
  - split; [lia|]. intros H. now rewrite (E H).
  - split; [lia | discriminate].
Qed.

Lemma research_loop_pages envs outline path n titles : forall i w,
  let evs := events (Run.research_loop envs outline path n i titles w) in
  Run.count Run.is_new_page evs = Run.passes_run envs outline n i titles /\
  Run.count Protocol.is_close evs
  = Protocol.opened envs outline n i titles.
Proof.
  unfold Run.research_loop.
  induction titles as [|t titles IH]; intros i w; cbv zeta.
  - split; reflexivity.
  - cbn [for_enumerate List.length Protocol.opened Run.passes_run].
    unfold bind.
    pose proof (research_section_run (envs i) outline path n i t w) as S.
    pose proof (research_section_pages (envs i) outline path n i t w) as P.
    cbv zeta in S, P. destruct S as (R & _). destruct P as (N & C & _).
    destruct (Bot.research_section (envs i) outline path n i t w)
      as [[r1 w1] evs1].
    unfold result, events in R, N, C. simpl in R, N, C. rewrite <- R.
    destruct r1 as [[]|e].
    + specialize (IH (S i) w1). cbv zeta in IH.
      destruct (for_enumerate (S i) titles _ w1) as [[r2 w2] evs2].
      unfold events in *. simpl in *. destruct IH as [N2 C2].
      rewrite !count_app, N, C, N2, C2. split; reflexivity.
    + unfold events. simpl. rewrite N, C. split; lia.
Qed.

(* ================================================================== *)
(** * Further properties of the two interaction functions *)

(** X9.  [generate_outline] returns the clipboard text exactly when no page
    call failed for good and the clipboard is not empty; otherwise
    it returns [None].  It never raises, never returns an empty outline
    and leaves the world as it found it. *)
Theorem generate_outline_result env topic w :
  let run := Bot.generate_outline env topic w in
  final run = w /\
  (forall text,
     result run = Returns (Some text) <->
     Protocol.first_failure env (fun e => e) = None /\
     on_paste env = Returns text /\ text <> "") /\
  (result run = Returns None <->
   ~ exists text,
       Protocol.first_failure env (fun e => e) = None /\
       on_paste env = Returns text /\ text <> "").
Proof.
  cbv zeta. rewrite outline_closed_form. unfold final, result. cbn [fst snd].
  split; [reflexivity|].
  destruct (Protocol.first_failure env (fun e => e)) as [e|].
  - split.
    + intros text. split; [discriminate | intros (D & _); discriminate D].
    + split; [intros _ (text & D & _); discriminate D | reflexivity].
  - destruct (on_paste env) as [t|e].
    + destruct t as [|c t]; cbn [Str.is_nil].
      * split.
        -- intros text. split; [discriminate|].
           intros (_ & P & NE). injection P as <-. congruence.
        -- split; [|reflexivity].
           intros _ (text & _ & P & NE). injection P as <-. congruence.
      * split.
        -- intros text. split.
           ++ intros H. injection H as <-. repeat split. discriminate.
           ++ intros (_ & P & _). injection P as <-. reflexivity.
        -- split; [discriminate|].
           intros H. exfalso. apply H. exists (String c t).
           repeat split. discriminate.
    + split.
      * intros text. split; [discriminate | intros (_ & D & _); discriminate D].
      * split; [intros _ (text & _ & D & _); discriminate D | reflexivity].
Qed.

Lemma generate_outline_result_witness :
  result (Bot.generate_outline (Run.smooth (Some "unchecked") "the outline")
            "Sourdough Bread" Run.blank)
  = Returns (Some "the outline").
Proof.
  apply (proj1 (proj2 (generate_outline_result
                         (Run.smooth (Some "unchecked") "the outline")
                         "Sourdough Bread" Run.blank))).
  repeat split. discriminate.
Defined.

(** X12.  What a pass of the loop hands to the output file is decided by
    the first call that fails: the error block carries the exception of
    the failed [new_page], or of the first failing page call, or of the
    clipboard read; without such a failure the record comes first, the
    clipboard text under the delimiter, and when its append fails the
    error block for the exception of that append follows.  The pass
    raises exactly when the append of an error block fails. *)
Theorem section_record_by_first_failure env outline path n i title w :
  let r := Bot.research_section env outline path n i title w in
  let interaction :=
    match on_new_page env with
    | Raises e => Raises e
    | Returns _ =>
        match Protocol.first_failure env (Protocol.response_timeout title)
        with
        | Some e => Raises e
        | None => on_paste env
        end
    end in
  Run.appended path (events r)
  = match interaction with
    | Raises e => [Bot.error_block title e]
    | Returns text =>
        (Bot.delimiter title
         ++ (if Str.is_nil text then Bot.copy_failed title else text))
        :: match failure (on_write_record env) with
           | Some e => [Bot.error_block title e]
           | None => []
           end
    end /\
  result r
  = match interaction, failure (on_write_record env),
          failure (on_write_error env) with
    | Raises _, _, Some e => Raises e
    | Returns _, Some _, Some e => Raises e
    | _, _, _ => Returns tt
    end /\
  Run.content path (final r)
  = Run.content path w
    ++ match interaction with
       | Raises e => left_in_file (Bot.error_block title e) (on_write_error env)
       | Returns text =>
           left_in_file
             (Bot.delimiter title
              ++ (if Str.is_nil text then Bot.copy_failed title else text))
             (on_write_record env)
           ++ match failure (on_write_record env) with
              | Some e =>
                  left_in_file (Bot.error_block title e) (on_write_error env)
              | None => ""
              end
       end.
Proof.
  cbv zeta.
  destruct (research_section_run env outline path n i title w)
    as (R & A & _ & C & _).
  rewrite R, A, C.
  unfold Run.pass_result, Run.attempts, Run.pass_written, Run.handled.
  rewrite <- (session_result_any_world env outline n i title Run.blank),
    session_closed_form.
  destruct (on_new_page env); [|now destruct (failure (on_write_error env))].
  destruct (Protocol.first_failure _ _);
    [now destruct (failure (on_write_error env))|].
  destruct (on_paste env); [|now destruct (failure (on_write_error env))].
  destruct (failure (on_write_record env));
    [now destruct (failure (on_write_error env))|].
  cbn [Run.record_of List.app]. now rewrite append_nil_r.
Qed.

Lemma section_record_by_first_failure_witness :
  Run.appended "out.txt"
    (events (Bot.research_section Scenario.locked_once "outline" "out.txt"
               4 0 "Introduction" Run.blank))
  = [ nl ++ nl ++ "==================== INTRODUCTION ====================" ++ nl
      ++ nl ++ "researched text";
      nl ++ nl ++ "--- ERROR DURING RESEARCH FOR: Introduction ---" ++ nl
      ++ "Details: [Errno 13] Permission denied: 'out.txt'" ++ nl ++ nl ].
Proof.
  exact (proj1 (section_record_by_first_failure Scenario.locked_once "outline"
                  "out.txt" 4 0 "Introduction" Run.blank)).
Defined.

(** X13.  When the response does not arrive in time, the section's record is
    the error block with the message of lines 124-125, whatever the
    timeout said; the copy button is not clicked and the clipboard is
    not read. *)
Theorem response_timeout_record env outline path n i title w m :
  on_wait_response env = Raises (TimeoutError m) ->
  In EWaitResponse (events (Bot.session env outline n i title w)) ->
  Run.appended path
    (events (Bot.research_section env outline path n i title w))
  = [ nl ++ nl ++ "--- ERROR DURING RESEARCH FOR: " ++ title ++ " ---" ++ nl
      ++ "Details: z.ai did not generate a response for '" ++ title
      ++ "' within 15 minutes." ++ nl ++ nl ] /\
  Run.count Run.is_click (events (Bot.session env outline n i title w)) = 0 /\
  Run.count Run.is_paste (events (Bot.session env outline n i title w)) = 0.
Proof.
  intros E H.
  destruct (session_response_wait env outline n i title w H _ E)
    as (R & C & P).
  destruct (research_section_run env outline path n i title w)
    as (_ & A & _).
  rewrite (session_result_any_world env outline n i title w) in R.
  rewrite A, (attempts_of_failure _ _ _ _ _ _ R).
  split; [|split; assumption].
  cbn [Protocol.response_timeout str_of_exn].
  unfold Bot.no_response_message.
  rewrite !append_assoc. reflexivity.
Qed.

Lemma response_timeout_record_witness :
  Run.appended "out.txt"
    (events (Bot.research_section (Scenario.sourdough_envs 2) "outline"
               "out.txt" 4 2 "Step 2" Run.blank))
  = [ nl ++ nl ++ "--- ERROR DURING RESEARCH FOR: Step 2 ---" ++ nl
      ++ "Details: z.ai did not generate a response for 'Step 2' within 15 minutes."
      ++ nl ++ nl ].
Proof.
  apply (proj1 (response_timeout_record (Scenario.sourdough_envs 2) "outline"
                  "out.txt" 4 2 "Step 2" Run.blank
                  "Timeout 900000ms exceeded." eq_refl
                  ltac:(simpl; tauto))).
Defined.

(** X14.  Over the whole loop a page is asked for once per pass made,
    which is once per section when the loop is not left by an exception,
    and every page that could be opened is closed; within a pass the
    closing is the last action on the page and comes after what the pass
    appends, also when the pass raises. *)
Theorem every_opened_page_closed envs outline path w :
  let titles := Outline.section_titles outline in
  let N := List.length titles in
  let run := Bot.research_each_step envs outline path w in
  Run.count Run.is_new_page (events run)
  = Run.passes_run envs outline N 0 titles /\
  Run.passes_run envs outline N 0 titles <= N /\
  (result run = Returns tt -> Run.count Run.is_new_page (events run) = N) /\
  Run.count Protocol.is_close (events run)
  = Protocol.opened envs outline N 0 titles /\
  forall k title w',
    let pass := events (Bot.research_section (envs k) outline path
                          N k title w') in
    (Protocol.returns (on_new_page (envs k)) = true ->
     exists before,
       pass = (before ++ [EClosePage; EPrint (PageClosed title)])%list /\
       1 <= Run.count Run.is_append before /\
       Run.count Protocol.is_close before = 0) /\
    (Protocol.returns (on_new_page (envs k)) = false ->
     Run.count Protocol.is_close pass = 0 /\
     Run.count Run.is_interaction pass = 1).
Proof.
  cbv zeta.
  destruct (research_each_step_summary envs outline path w) as (R & _).
  rewrite R. clear R.
  rewrite research_each_step_unfold. cbv zeta.
  set (titles := Outline.section_titles outline).
  destruct (research_loop_pages envs outline path (List.length titles)
              titles 0 w) as [N C].
  destruct (passes_run_bound envs outline (List.length titles) titles 0)
    as [B E].
  assert (N' : Run.count Run.is_new_page
                 (events
                    match titles with
                    | [] => (Returns tt, w,
                             [EPrint Banner; EPrint ResearchStart;
                              EPrint NoSections])
                    | _ :: _ =>
                        (result (Run.research_loop envs outline path
                                   (List.length titles) 0 titles w),
                         final (Run.research_loop envs outline path
                                  (List.length titles) 0 titles w),
                         ([EPrint Banner; EPrint ResearchStart;
                           EPrint (Found (List.length titles) titles)]
                          ++ events (Run.research_loop envs outline path
                                       (List.length titles) 0 titles w))%list)
                    end)
               = Run.passes_run envs outline (List.length titles) 0 titles).
  { destruct titles as [|t ts] eqn:T; [reflexivity|]. rewrite <- T in *.
    unfold events in *. cbn [snd]. rewrite count_app, N. reflexivity. }
  split; [exact N'|]. split; [exact B|].
  split; [intros H; rewrite N'; exact (E H)|]. split.
  - destruct titles as [|t ts] eqn:T; [reflexivity|]. rewrite <- T in *.
    unfold events in *. cbn [snd]. rewrite count_app, C. reflexivity.
  - intros k title w'.
    destruct (research_section_pages (envs k) outline path
                (List.length titles) k title w') as (_ & Cl & Op & No).
    split; [exact Op|]. intros H. split; [|exact (No H)].
    rewrite Cl, H. reflexivity.
Qed.

Lemma every_opened_page_closed_witness :
  Run.count Run.is_new_page
    (events (Bot.research_each_step (fun _ => Scenario.unwritable)
               Scenario.sourdough_outline "out.txt" Run.blank)) = 1 /\
  Run.count Protocol.is_close
    (events (Bot.research_each_step (fun _ => Scenario.unwritable)
               Scenario.sourdough_outline "out.txt" Run.blank)) = 1.
Proof.
  pose proof (every_opened_page_closed (fun _ => Scenario.unwritable)
                Scenario.sourdough_outline "out.txt" Run.blank) as T.
  cbv zeta in T. destruct T as (N & _ & _ & C & _).
  split; [exact N | exact C].
Defined.

(** X15.  The research phase writes to the output file only: every other file
    is as before, and no append goes to another path. *)
Theorem only_output_file_written envs outline path w other :
  other <> path ->
  let run := Bot.research_each_step envs outline path w in
  fs_read other (files (final run)) = fs_read other (files w) /\
  Run.appended other (events run) = [].
Proof.
  intros NE. cbv zeta.
  destruct (research_each_step_summary envs outline path w)
    as (_ & A & C & _ & O).
  pose proof (appends_elsewhere path other
                (events (Bot.research_each_step envs outline path w)) NE) as L.
  rewrite A, C in L.
  split; [exact (O other NE)|].
  destruct (Run.appended other _); [reflexivity | simpl in L; lia].
Qed.

Lemma only_output_file_written_witness :
  fs_read "notes.txt"
    (files (final (Bot.research_each_step Scenario.sourdough_envs
                     Scenario.sourdough_outline "out.txt"
                     {| files := [("notes.txt", "mine")]; page := false |})))
  = Some "mine".
Proof.
  apply (proj1 (only_output_file_written Scenario.sourdough_envs
                  Scenario.sourdough_outline "out.txt"
                  {| files := [("notes.txt", "mine")]; page := false |}
                  "notes.txt" ltac:(discriminate))).
Defined.

(* ================================================================== *)
(** * Further properties of the file name *)

Lemma clean_char (c : ascii) :
  FileName.clean c = true ->
  Naming.kept c = true /\ FileName.plain c = true /\ Ascii.eqb c Str.space = false.
Proof.
  destruct c as [[] [] [] [] [] [] [] []]; vm_compute; intros H;
    try discriminate H; repeat split.
Qed.

Lemma all_weaken (p q : ascii -> bool) s :
  (forall c, p c = true -> q c = true) ->
  Str.all p s = true -> Str.all q s = true.
Proof.
  intros I. induction s as [|c s IH]; simpl; [reflexivity|].
  intros H. apply andb_true_iff in H as [Hc Hs].
  now rewrite (I c Hc), (IH Hs).
Qed.

Lemma safe_topic_clean topic : Str.all FileName.clean (Naming.safe_topic topic) = true.
Proof.
  unfold Naming.safe_topic.
  set (kept := Str.filter Naming.kept topic).
  destruct (rstrip_split kept) as [ws [E W]].
  assert (K : Str.all Naming.kept kept = true) by apply all_filter.
  rewrite E, all_append in K. apply andb_true_iff in K as [Kpre _].
  now apply replace_clean.
Qed.

Lemma ends_in_none p s : Str.all (fun c => negb (p c)) s = true ->
  Str.ends_in p s = false.
Proof.
  induction s as [|c s IH]; simpl; [reflexivity|].
  intros H. apply andb_true_iff in H as [Hc Hs].
  destruct s as [|d s']; [now apply negb_true_iff in Hc | now apply IH].
Qed.

Lemma map_id_on (f : ascii -> ascii) (p : ascii -> bool) s :
  (forall c, p c = true -> f c = c) ->
  Str.all p s = true -> Str.map f s = s.
Proof.
  intros I. induction s as [|c s IH]; simpl; [reflexivity|].
  intros H. apply andb_true_iff in H as [Hc Hs].
  now rewrite (I c Hc), (IH Hs).
Qed.

Lemma length_filter p s : String.length (Str.filter p s) <= String.length s.
Proof.
  induction s as [|c s IH]; simpl; [lia|]. destruct (p c); simpl; lia.
Qed.

Lemma length_rstrip s : String.length (Str.rstrip s) <= String.length s.
Proof.
  induction s as [|c s IH]; simpl; [lia|].
  destruct (Str.is_nil (Str.rstrip s) && Str.isspace c); simpl; lia.
Qed.

Lemma length_map f s : String.length (Str.map f s) = String.length s.
Proof. induction s as [|c s IH]; simpl; [reflexivity | now rewrite IH]. Qed.

(** A topic made of kept characters that does not end in whitespace only
    has its spaces turned into underscores. *)
Lemma safe_topic_of_kept topic :
  Str.all Naming.kept topic = true ->
  Str.ends_in Str.isspace topic = false ->
  Naming.safe_topic topic = Str.replace Str.space Str.underscore topic.
Proof.
  intros K E. unfold Naming.safe_topic.
  now rewrite (filter_all _ _ K), (rstrip_fixed _ E).
Qed.

(** X6.  Sanitizing twice is sanitizing once. *)
Theorem safe_topic_idempotent topic :
  Naming.safe_topic (Naming.safe_topic topic) = Naming.safe_topic topic.
Proof.
  pose proof (safe_topic_clean topic) as C.
  set (r := Naming.safe_topic topic) in *.
  rewrite safe_topic_of_kept.
  - unfold Str.replace. apply (map_id_on _ FileName.clean); [|exact C].
    intros c H. destruct (clean_char c H) as (_ & _ & S). now rewrite S.
  - apply (all_weaken FileName.clean); [|exact C]. intros c H. apply (clean_char c H).
  - apply ends_in_none. apply (all_weaken FileName.clean); [|exact C].
    intros c H. destruct (clean_char c H) as (_ & P & _).
    unfold FileName.plain in P. now repeat (apply andb_true_iff in P as [P _]).
Qed.

(** X7.  The sanitized topic is no longer than the topic and holds no
    whitespace, path separator, dot or colon, so the file name of line
    173 names a file directly in the research directory. *)
Theorem safe_topic_is_plain topic :
  String.length (Naming.safe_topic topic) <= String.length topic /\
  Str.all FileName.plain (Naming.safe_topic topic) = true.
Proof.
  split.
  - unfold Naming.safe_topic, Str.replace. rewrite length_map.
    etransitivity; [apply length_rstrip | apply length_filter].
  - apply (all_weaken FileName.clean); [|apply safe_topic_clean].
    intros c H. apply (clean_char c H).
Qed.

(** X8.  A topic of letters, digits, underscores and inner spaces keeps its
    length and its characters, the spaces becoming underscores; without
    spaces it is its own sanitized form. *)
Theorem kept_topic_only_respaced topic :
  Str.all Naming.kept topic = true ->
  Str.ends_in Str.isspace topic = false ->
  Naming.safe_topic topic = Str.replace Str.space Str.underscore topic /\
  String.length (Naming.safe_topic topic) = String.length topic /\
  (Str.all FileName.clean topic = true -> Naming.safe_topic topic = topic).
Proof.
  intros K E. rewrite (safe_topic_of_kept topic K E).
  split; [reflexivity|]. split; [apply length_map|].
  intros C. unfold Str.replace. apply (map_id_on _ FileName.clean); [|exact C].
  intros c H. destruct (clean_char c H) as (_ & _ & S). now rewrite S.
Qed.

Lemma kept_topic_only_respaced_witness :
  Naming.safe_topic "Sourdough Bread"
  = Str.replace Str.space Str.underscore "Sourdough Bread".
Proof.
  apply (proj1 (kept_topic_only_respaced "Sourdough Bread" eq_refl eq_refl)).
Defined.

(* ================================================================== *)
(** * Further properties of the extraction *)

(** X3.  Text without a [#] in front of an outline does not change what is
    extracted from it. *)
Theorem text_before_headings_ignored (preamble content_outline : string) :
  Str.all (fun c => negb (Ascii.eqb c "#")) preamble = true ->
  Outline.sections (preamble ++ content_outline)
  = Outline.sections content_outline.
Proof.
  intros H. unfold Outline.sections, Re.findall.
  now rewrite (OutlineFacts.scan_no_hash _ _ H).
Qed.

Lemma text_before_headings_ignored_witness :
  Outline.sections ("Here is your outline." ++ nl ++ Scenario.sourdough_outline)
  = Outline.sections Scenario.sourdough_outline.
Proof.
  apply (text_before_headings_ignored ("Here is your outline." ++ nl)
           Scenario.sourdough_outline).
  reflexivity.
Defined.

(** X4.  An outline without any separator yields no section, however many
    headings it holds, and the research phase then does nothing but
    report it. *)
Theorem no_separator_no_research envs content_outline path w :
  Str.occurs "---" content_outline = false ->
  Outline.sections content_outline = [] /\
  Bot.research_each_step envs content_outline path w
  = (Returns tt, w, [EPrint Banner; EPrint ResearchStart; EPrint NoSections]).
Proof.
  intros H.
  assert (E : Outline.sections content_outline = []).
  { unfold Outline.sections, Re.findall.
    now rewrite (OutlineFacts.scan_no_separator _ H). }
  split; [exact E|].
  rewrite research_each_step_unfold. cbv zeta.
  unfold Outline.section_titles. rewrite E. reflexivity.
Qed.

Lemma no_separator_no_research_witness :
  Outline.sections ("## Introduction: all there is" ++ nl
                    ++ "## Conclusion: the end") = [].
Proof.
  apply (proj1 (no_separator_no_research (fun _ => Run.smooth None "")
                  ("## Introduction: all there is" ++ nl
                   ++ "## Conclusion: the end")
                  "out.txt" Run.blank eq_refl)).
Defined.

Lemma upper_digits ds :
  Str.all Str.isdigit ds = true -> Str.upper ds = ds.
Proof.
  unfold Str.upper. apply map_id_on.
  intros c H. destruct c as [[] [] [] [] [] [] [] []];
    try discriminate H; reflexivity.
Qed.

Lemma upper_append a b : Str.upper (a ++ b) = Str.upper a ++ Str.upper b.
Proof.
  unfold Str.upper. induction a as [|c a IH]; simpl; [reflexivity|].
  now rewrite IH.
Qed.

Lemma title_forms t :
  Outline.is_title t = true ->
  (t = "Introduction" /\ Str.upper t = "INTRODUCTION") \/
  (t = "Conclusion" /\ Str.upper t = "CONCLUSION") \/
  exists digits,
    digits <> "" /\ Str.all Str.isdigit digits = true /\
    t = "Step " ++ digits /\ Str.upper t = "STEP " ++ digits.
Proof.
  unfold Outline.is_title. intros H.
  apply orb_true_iff in H as [H|H]; [apply orb_true_iff in H as [H|H]|].
  - apply String.eqb_eq in H. subst. left. split; reflexivity.
  - apply String.eqb_eq in H. subst. right. left. split; reflexivity.
  - apply andb_true_iff in H as [H A]. apply andb_true_iff in H as [S N].
    apply negb_true_iff in N. right. right.
    exists (Str.drop 5 t).
    pose proof (OutlineFacts.starts_with_split "Step " t S) as E.
    cbn [String.length] in E.
    split; [intros Z; rewrite Z in N; discriminate N|].
    split; [exact A|]. split; [exact E|].
    rewrite E at 1. rewrite upper_append, (upper_digits _ A). reflexivity.
Qed.

(** X5.  Every title extracted is "Introduction", "Conclusion" or "Step "
    followed by decimal digits, so the title in the delimiter line is
    "INTRODUCTION", "CONCLUSION" or "STEP " followed by the same
    digits. *)
Theorem extracted_titles (content_outline : string) :
  Forall (fun t =>
            (t = "Introduction" /\ Str.upper t = "INTRODUCTION") \/
            (t = "Conclusion" /\ Str.upper t = "CONCLUSION") \/
            exists digits,
              digits <> "" /\ Str.all Str.isdigit digits = true /\
              t = "Step " ++ digits /\ Str.upper t = "STEP " ++ digits)
    (Outline.section_titles content_outline).
Proof.
  unfold Outline.section_titles.
  destruct (OutlineFacts.scan_sound (String.length content_outline)
              content_outline (Nat.le_refl _)) as [_ F].
  cbv zeta in F. fold (Re.findall Outline.section_re content_outline) in F.
  fold (Outline.sections content_outline) in F.
  induction F as [|m l [T _] _ IH]; cbn [List.map]; constructor; [|exact IH].
  now apply title_forms.
Qed.

Lemma outline_follows_script_witness :
  exists toggled fell_back,
    List.filter Run.is_interaction
      (events (Bot.generate_outline (Run.smooth (Some "unchecked") "outline")
                 "Sourdough Bread" Run.blank))
    = Protocol.script toggled fell_back (Bot.outline_prompt "Sourdough Bread").
Proof.
  apply (proj2 (outline_follows_script (Run.smooth (Some "unchecked") "outline")
                  "Sourdough Bread" Run.blank) "outline").
  reflexivity.
Defined.

Lemma session_follows_script_witness :
  exists toggled fell_back,
    List.filter Run.is_interaction
      (events (Bot.session (Run.smooth (Some "unchecked") "text") "outline"
                 4 0 "Introduction" Run.blank))
    = ENewPage :: Protocol.script toggled fell_back
                    (Bot.research_prompt "Introduction" "outline").
Proof.
  apply (proj2 (session_follows_script (Run.smooth (Some "unchecked") "text")
                  "outline" 4 0 "Introduction" Run.blank) "text").
  reflexivity.
Defined.

(* ================================================================== *)
(** * Properties of the main block *)

Import Main Script.

Lemma inner_events_app a b :
  inner_events (a ++ b) = (inner_events a ++ inner_events b)%list.
Proof.
  induction a as [|st a IH]; simpl; [reflexivity|].
  destruct st; simpl; now rewrite ?IH.
Qed.

Lemma inner_events_map evs : inner_events (List.map Inner evs) = evs.
Proof. induction evs as [|ev evs IH]; simpl; now rewrite ?IH. Qed.

Lemma count_steps_app p a b :
  Script.count p (a ++ b) = Script.count p a + Script.count p b.
Proof. unfold Script.count. now rewrite List.filter_app, List.length_app. Qed.

Lemma count_inner p evs :
  (forall ev, p (Inner ev) = false) ->
  Script.count p (List.map Inner evs) = 0.
Proof.
  intros H. unfold Script.count.
  induction evs as [|ev evs IH]; simpl; [reflexivity|]. now rewrite H.
Qed.

(** The main block in closed form: what it does for each way the
    directory, the browser, the outline and the research can turn out.
    An exception that leaves [research_each_step] is caught at line 198
    like any other. *)
Lemma main_closed_form e sep topic timestamp w :
  topic <> "" ->
  let path := Naming.path_join sep Naming.RESEARCH_DIR
                (Naming.output_filename topic timestamp) in
  let gen := Bot.generate_outline (outline_page e) topic w in
  let folder := if dir_exists e then []
                else [MakeDirs; Say FolderCreated] in
  let closing := [Say (TaskCompleted path); StopPlaywright] in
  Script.main e sep topic timestamp w
  = if negb (dir_exists e) && negb (Protocol.returns (on_makedirs e)) then
      (match on_makedirs e with
       | Raises ex => Uncaught ex | Returns _ => Finished end,
       w, [PathExists; MakeDirs])
    else
      match on_start e with
      | Raises ex =>
          (Uncaught ex, w, (PathExists :: folder ++ [StartPlaywright])%list)
      | Returns _ =>
          match on_launch e with
          | Raises ex =>
              (Finished, w,
               (PathExists :: folder
                ++ [StartPlaywright; Say Launching; Launch;
                    Say (Critical (str_of_exn ex))] ++ closing)%list)
          | Returns _ =>
              match on_outline_page e with
              | Raises ex =>
                  (Finished, w,
                   (PathExists :: folder
                    ++ [StartPlaywright; Say Launching; Launch;
                        Say BrowserReady; NewPage;
                        Say (Critical (str_of_exn ex)); CloseContext]
                    ++ closing)%list)
              | Returns _ =>
                  match result gen with
                  | Returns (Some text) =>
                      let research :=
                        Bot.research_each_step (section_pages e) text path w in
                      (Finished, final research,
                       (PathExists :: folder
                        ++ [StartPlaywright; Say Launching; Launch;
                            Say BrowserReady; NewPage]
                        ++ List.map Inner (events gen) ++ [ClosePage]
                        ++ List.map Inner (events research)
                        ++ match result research with
                           | Returns _ => [Say Separator; Say AllProcessed]
                           | Raises ex => [Say (Critical (str_of_exn ex))]
                           end
                        ++ [CloseContext] ++ closing)%list)
                  | _ =>
                      (Finished, w,
                       (PathExists :: folder
                        ++ [StartPlaywright; Say Launching; Launch;
                            Say BrowserReady; NewPage]
                        ++ List.map Inner (events gen)
                        ++ [ClosePage; Say Skipped; CloseContext]
                        ++ closing)%list)
                  end
              end
          end
      end.
Proof.
  intros NE. cbv zeta.
  assert (Z : forall text,
            result (Bot.generate_outline (outline_page e) topic w)
            = Returns (Some text) -> Str.is_nil text = false).
  { intros text. rewrite outline_closed_form. unfold result. cbn [fst].
    destruct (Protocol.first_failure _ _); [discriminate|].
    destruct (on_paste _) as [t|]; [|discriminate].
    destruct (Str.is_nil t) eqn:N; [discriminate|].
    intros H. injection H as <-. exact N. }
  pose proof (outline_closed_form (outline_page e) topic w) as G.
  unfold Script.main. destruct topic as [|c topic']; [congruence|].
  set (topic := String c topic') in *. cbn [Str.is_nil].
  unfold Script.run, Main.bind, Main.call, Main.say, Main.ret, Main.lift,
    Main.try_finally, Main.try_except, Main.set_context, Main.get_context.
  destruct e as [de mk st la op outp secp].
  cbn [dir_exists on_makedirs on_start on_launch on_outline_page
       outline_page section_pages] in *.
  destruct de, mk, st, la, op;
    cbn -[Bot.generate_outline Bot.research_each_step Naming.output_filename
          Naming.path_join Naming.RESEARCH_DIR];
    try reflexivity;
    (destruct (Bot.generate_outline outp topic w) as [[r w1] evs];
     unfold result, events in *; cbn [fst snd] in *;
     injection G as -> ->;
     match goal with
     | |- context [match ?x with Some _ => _ | None => _ end] =>
         destruct x as [text|] eqn:O
     end;
     [ rewrite (Z text eq_refl); cbn [inner browser_context];
       unfold result, final, events;
       match goal with
       | |- context [Bot.research_each_step ?a ?b ?c ?d] =>
           destruct (Bot.research_each_step a b c d) as [[r2 w2] evs2]
       end;
       destruct r2;
       cbn -[Naming.output_filename Naming.path_join Naming.RESEARCH_DIR]
     | cbn -[Naming.output_filename Naming.path_join Naming.RESEARCH_DIR] ];
     repeat (cbn [List.app]; rewrite <- List.app_assoc);
     cbn [List.app]; reflexivity).
Qed.

Lemma filter_inner p evs :
  (forall ev, p (Inner ev) = false) ->
  List.filter p (List.map Inner evs) = [].
Proof.
  intros H. induction evs as [|ev evs IH]; simpl; [reflexivity|].
  now rewrite H.
Qed.



Ltac tally :=
  unfold Script.count;
  repeat (rewrite ?List.filter_app, ?List.length_app;
          rewrite ?filter_inner by reflexivity;
          cbn [List.filter List.length List.app is_launch is_close_context
               is_makedirs is_inner is_say negb Nat.add]);
  try reflexivity.

Lemma ends_with_refl {A} (l : list A) : ends_with l l.
Proof. now exists []. Qed.

Lemma ends_with_cons {A} (suffix : list A) x l :
  ends_with suffix l -> ends_with suffix (x :: l).
Proof. intros [before ->]. now exists (x :: before). Qed.

Lemma ends_with_app {A} (suffix l1 l2 : list A) :
  ends_with suffix l2 -> ends_with suffix (l1 ++ l2).
Proof.
  intros [before ->]. exists (l1 ++ before)%list. now rewrite List.app_assoc.
Qed.

Ltac to_the_end :=
  repeat first [ apply ends_with_refl | apply ends_with_cons
               | apply ends_with_app ].

Ltac find_in :=
  cbn [In];
  first [ left; reflexivity
        | right; find_in
        | apply List.in_or_app; right; find_in ].

Ltac main_cases e :=
  rewrite main_closed_form by assumption; cbv zeta; unfold set_up;
  destruct (dir_exists e), (on_makedirs e), (on_start e);
  cbn [negb andb orb Protocol.returns fst snd].

(** Splits on what [generate_outline] returned and on how the research
    ended. *)
Ltac by_results :=
  try match goal with
      | |- context [result (Bot.generate_outline ?a ?b ?c)] =>
          destruct (result (Bot.generate_outline a b c)) as [[?|]|]
      end;
  try match goal with
      | |- context [result (Bot.research_each_step ?a ?b ?c ?d)] =>
          destruct (result (Bot.research_each_step a b c d))
      end.

(** X17.  An exception escapes the main block only from the creation of the
    research directory or from the start of the Playwright driver, before
    any browser exists; the directory is created only when it is
    absent.  Once the driver is up the program always runs to its last
    two actions, the "task completed" line and the stop of the driver. *)
Theorem main_ends_normally_once_set_up e sep topic timestamp w :
  topic <> "" ->
  let r := Script.main e sep topic timestamp w in
  let steps := snd r in
  Script.count is_makedirs steps = (if dir_exists e then 0 else 1) /\
  (set_up e = true ->
   fst (fst r) = Finished /\
   ends_with [Say (TaskCompleted (report_path sep topic timestamp));
              StopPlaywright] steps) /\
  (set_up e = false ->
   (exists ex, fst (fst r) = Uncaught ex) /\
   snd (fst r) = w /\ Script.count is_launch steps = 0).
Proof.
  intros NE. cbv zeta. unfold report_path. main_cases e;
    try (split; [reflexivity|]; split; intros H; try discriminate H;
         split; [eexists; reflexivity | split; reflexivity]).
  all: split;
    [ destruct (on_launch e), (on_outline_page e);
      by_results; cbn [snd]; tally
    | split; intros H; try discriminate H ].
  all: destruct (on_launch e), (on_outline_page e);
    by_results; cbn [fst snd];
    (split; [reflexivity|]); cbn [List.app]; to_the_end.
Qed.

Lemma main_ends_normally_once_set_up_witness :
  fst (fst (Script.main
              (Script.ready (Run.smooth (Some "checked") Scenario.sourdough_outline)
                 Scenario.sourdough_envs)
              "/" "Sourdough Bread" "20240101_120000" Run.blank))
  = Finished.
Proof.
  apply (proj1 (proj2 (main_ends_normally_once_set_up
                  (Script.ready
                     (Run.smooth (Some "checked") Scenario.sourdough_outline)
                     Scenario.sourdough_envs)
                  "/" "Sourdough Bread" "20240101_120000" Run.blank
                  ltac:(discriminate)))).
  reflexivity.
Defined.

(** X18.  The browser context is launched at most once and closed exactly when
    it was launched; its closing is followed only by the "task
    completed" line and the stop of the driver, so it comes after
    everything the two functions did. *)
Theorem browser_context_closed_once e sep topic timestamp w :
  topic <> "" ->
  let steps := snd (Script.main e sep topic timestamp w) in
  Script.count is_launch steps = (if set_up e then 1 else 0) /\
  Script.count is_close_context steps
  = (if set_up e && Protocol.returns (on_launch e) then 1 else 0) /\
  (set_up e = true -> Protocol.returns (on_launch e) = true ->
   ends_with [CloseContext;
              Say (TaskCompleted (report_path sep topic timestamp));
              StopPlaywright] steps).
Proof.
  intros NE. cbv zeta. unfold report_path. main_cases e;
    try (split; [reflexivity|]; split; [reflexivity|];
         intros H; discriminate H).
  all: destruct (on_launch e), (on_outline_page e);
    by_results;
    cbn [fst snd Protocol.returns andb];
    (split; [tally|]; split; [tally|]);
    intros _ H; try discriminate H; cbn [List.app]; to_the_end.
Qed.

Lemma browser_context_closed_once_witness :
  ends_with [CloseContext;
             Say (TaskCompleted
                    (report_path "/" "Sourdough Bread" "20240101_120000"));
             StopPlaywright]
    (snd (Script.main
            (Script.ready (Run.smooth (Some "checked") "") Scenario.sourdough_envs)
            "/" "Sourdough Bread" "20240101_120000" Run.blank)).
Proof.
  apply (proj2 (proj2 (browser_context_closed_once
                  (Script.ready (Run.smooth (Some "checked") "")
                     Scenario.sourdough_envs)
                  "/" "Sourdough Bread" "20240101_120000" Run.blank
                  ltac:(discriminate)))); reflexivity.
Defined.

(** X19.  Without an outline there is no research: when [generate_outline]
    returns [None] the main block calls nothing of the research phase,
    leaves every file as it was and, if the outline page came up, prints
    that the research step is skipped. *)
Theorem failed_outline_skips_research e sep topic timestamp w :
  topic <> "" ->
  result (Bot.generate_outline (outline_page e) topic w) = Returns None ->
  let r := Script.main e sep topic timestamp w in
  snd (fst r) = w /\
  (inner_events (snd r) = [] \/
   inner_events (snd r)
   = events (Bot.generate_outline (outline_page e) topic w)) /\
  (set_up e = true -> Protocol.returns (on_launch e) = true ->
   Protocol.returns (on_outline_page e) = true ->
   In (Say Skipped) (snd r) /\
   inner_events (snd r)
   = events (Bot.generate_outline (outline_page e) topic w)).
Proof.
  intros NE G. cbv zeta. main_cases e;
    try (split; [reflexivity|]; split; [left; reflexivity|];
         intros H; discriminate H).
  all: rewrite G; destruct (on_launch e), (on_outline_page e);
    cbn [fst snd Protocol.returns];
    (split; [reflexivity|]);
    rewrite ?inner_events_app; cbn [inner_events List.app];
    rewrite ?inner_events_app, ?inner_events_map; cbn [inner_events List.app];
    rewrite ?List.app_nil_r;
    (split; [auto|]); intros _ H1 H2; try discriminate H1; try discriminate H2;
    (split; [|reflexivity]);
    cbn [List.app]; find_in.
Qed.

Lemma failed_outline_skips_research_witness :
  In (Say Skipped)
    (snd (Script.main
            (Script.ready (Run.smooth (Some "checked") "") Scenario.sourdough_envs)
            "/" "Sourdough Bread" "20240101_120000" Run.blank)).
Proof.
  apply (proj2 (proj2 (failed_outline_skips_research
                  (Script.ready (Run.smooth (Some "checked") "")
                     Scenario.sourdough_envs)
                  "/" "Sourdough Bread" "20240101_120000" Run.blank
                  ltac:(discriminate) eq_refl)));
    reflexivity.
Defined.

(** X20.  From the topic to the file.  When the directory, the driver, the
    browser and the outline page come up and [generate_outline] returns
    a text, the main block ends normally and what the two functions did
    is [generate_outline] on the topic followed by [research_each_step]
    on that text, with the file named after the sanitized topic and the
    timestamp; an exception that leaves the research is reported on the
    console as a critical error.  When each append to that file
    succeeds, the research raises nothing and the file has grown by one
    record per section of that text. *)
Theorem main_end_to_end e sep topic timestamp w text :
  topic <> "" ->
  set_up e = true ->
  Protocol.returns (on_launch e) = true ->
  Protocol.returns (on_outline_page e) = true ->
  result (Bot.generate_outline (outline_page e) topic w)
  = Returns (Some text) ->
  let r := Script.main e sep topic timestamp w in
  let path := Naming.RESEARCH_DIR ++ sep ++ "article_research_"
              ++ Naming.safe_topic topic ++ "_" ++ timestamp ++ ".txt" in
  let titles := Outline.section_titles text in
  let research := Bot.research_each_step (section_pages e) text path w in
  fst (fst r) = Finished /\
  inner_events (snd r)
  = (events (Bot.generate_outline (outline_page e) topic w)
     ++ events research)%list /\
  (forall ex, result research = Raises ex ->
     In (Say (Critical (str_of_exn ex))) (snd r)) /\
  (Run.appends_succeed (section_pages e) text (List.length titles) 0 titles ->
   result research = Returns tt /\
   In (Say AllProcessed) (snd r) /\
   Run.content path (snd (fst r))
   = Run.content path w
     ++ String.concat ""
          (Run.records (section_pages e) text (List.length titles) 0 titles)).
Proof.
  intros NE S L P G. cbv zeta.
  change (Naming.RESEARCH_DIR ++ sep ++ "article_research_"
          ++ Naming.safe_topic topic ++ "_" ++ timestamp ++ ".txt")
    with (Naming.path_join sep Naming.RESEARCH_DIR
            (Naming.output_filename topic timestamp)).
  set (path := Naming.path_join sep Naming.RESEARCH_DIR
                 (Naming.output_filename topic timestamp)).
  destruct (research_each_step_summary (section_pages e) text path w)
    as (R & _ & _ & C & _).
  rewrite main_closed_form by assumption. cbv zeta. fold path.
  unfold set_up in S.
  assert (K : Run.appends_succeed (section_pages e) text
                (List.length (Outline.section_titles text)) 0
                (Outline.section_titles text) ->
              result (Bot.research_each_step (section_pages e) text path w)
              = Returns tt /\
              Run.content path
                (final (Bot.research_each_step (section_pages e) text path w))
              = Run.content path w
                ++ String.concat ""
                     (Run.records (section_pages e) text
                        (List.length (Outline.section_titles text)) 0
                        (Outline.section_titles text))).
  { intros OK.
    destruct (loop_when_appends_succeed (section_pages e) text _ _ 0 OK)
      as (LR & _ & LW & _).
    rewrite R, C, LR, LW. split; reflexivity. }
  destruct (dir_exists e), (on_makedirs e), (on_start e); try discriminate S;
    destruct (on_launch e); try discriminate L;
    destruct (on_outline_page e); try discriminate P;
    cbn [negb andb orb Protocol.returns]; rewrite G; cbn [fst snd];
    (split; [reflexivity|]);
    (split;
     [ rewrite ?inner_events_app; cbn [inner_events List.app];
       rewrite ?inner_events_app, ?inner_events_map;
       cbn [inner_events List.app];
       rewrite ?inner_events_app, ?inner_events_map;
       cbn [inner_events List.app];
       destruct (result (Bot.research_each_step _ _ _ _));
       cbn [inner_events List.app]; now rewrite ?List.app_nil_r
     | split;
       [ intros ex E; rewrite E; cbn [List.app]; find_in
       | intros OK; destruct (K OK) as [KR KC];
         split; [exact KR|]; split; [|exact KC];
         rewrite KR; cbn [List.app]; find_in ] ]).
Qed.

Lemma main_end_to_end_witness :
  Run.content "article_research/article_research_Sourdough_Bread_20240101_120000.txt"
    (snd (fst (Script.main
                 (Script.ready
                    (Run.smooth (Some "checked") Scenario.sourdough_outline)
                    Scenario.sourdough_envs)
                 "/" "Sourdough Bread" "20240101_120000" Run.blank)))
  = nl ++ nl ++ "==================== INTRODUCTION ====================" ++ nl
    ++ nl ++ "researched text"
    ++ nl ++ nl ++ "==================== STEP 1 ====================" ++ nl
    ++ nl ++ "researched text"
    ++ nl ++ nl ++ "--- ERROR DURING RESEARCH FOR: Step 2 ---" ++ nl
    ++ "Details: z.ai did not generate a response for 'Step 2' within 15 minutes."
    ++ nl ++ nl
    ++ nl ++ nl ++ "==================== CONCLUSION ====================" ++ nl
    ++ nl ++ "researched text".
Proof.
  assert (OK : Run.appends_succeed Scenario.sourdough_envs
                 Scenario.sourdough_outline 4 0
                 ["Introduction"; "Step 1"; "Step 2"; "Conclusion"])
    by (vm_compute; auto).
  pose proof (main_end_to_end
                (Script.ready
                   (Run.smooth (Some "checked") Scenario.sourdough_outline)
                   Scenario.sourdough_envs)
                "/" "Sourdough Bread" "20240101_120000" Run.blank
                Scenario.sourdough_outline
                ltac:(discriminate) eq_refl eq_refl eq_refl eq_refl) as T.
  cbv zeta in T. destruct T as (_ & _ & _ & T).
  exact (proj2 (proj2 (T OK))).
Defined.

(** X21.  Whatever happens, the program changes no file but the one named
    after the topic and the timestamp. *)
Theorem main_only_output_file e sep topic timestamp w other :
  other <> report_path sep topic timestamp ->
  fs_read other (files (snd (fst (Script.main e sep topic timestamp w))))
  = fs_read other (files w).
Proof.
  intros NE. destruct topic as [|c t]; [reflexivity|].
  rewrite main_closed_form by discriminate. cbv zeta.
  destruct (dir_exists e), (on_makedirs e), (on_start e), (on_launch e),
    (on_outline_page e); cbn [negb andb Protocol.returns fst snd];
    try reflexivity;
    destruct (result _) as [[text|]|]; cbn [fst snd]; try reflexivity;
    match goal with
    | |- fs_read _ (files (final (Bot.research_each_step ?a ?b ?c ?d))) = _ =>
        destruct (research_each_step_summary a b c d) as (_ & _ & _ & _ & O)
    end;
    exact (O other NE).
Qed.

Lemma main_only_output_file_witness :
  fs_read "notes.txt"
    (files (snd (fst (Script.main
                        (Script.ready
                           (Run.smooth (Some "checked") Scenario.sourdough_outline)
                           Scenario.sourdough_envs)
                        "/" "Sourdough Bread" "20240101_120000"
                        {| files := [("notes.txt", "mine")]; page := false |}))))
  = Some "mine".
Proof.
  apply (main_only_output_file
           (Script.ready
              (Run.smooth (Some "checked") Scenario.sourdough_outline)
              Scenario.sourdough_envs)
           "/" "Sourdough Bread" "20240101_120000"
           {| files := [("notes.txt", "mine")]; page := false |} "notes.txt").
  discriminate.
Defined.
